(** * zschema leaves: validation and BigQuery export of scalar field types

    A shallow embedding of [leaves.py] (Python 2).  The catalog of leaf
    classes is a closed enumeration with the class attributes of each class
    kept where the source declares them; attribute reads follow the
    inheritance chain.  Exceptions are explicit results. *)

From Stdlib Require Import ZArith String Ascii List Bool Lia.
From stdpp Require Import base gmap strings pretty.
Import ListNotations.

Local Open Scope string_scope.
Local Open Scope Z_scope.

(** ** Python values *)

(** The built-in classes of the scalar values a record can hold. *)
Inductive pyclass :=
| py_str | py_unicode | py_int | py_long | py_float | py_bool | py_NoneType.

Definition pyclass_eqb (a b : pyclass) : bool :=
  match a, b with
  | py_str, py_str | py_unicode, py_unicode | py_int, py_int
  | py_long, py_long | py_float, py_float | py_bool, py_bool
  | py_NoneType, py_NoneType => true
  | _, _ => false
  end.

(** [cls.__name__] *)
Definition pyclass_name (c : pyclass) : string :=
  match c with
  | py_str => "str"
  | py_unicode => "unicode"
  | py_int => "int"
  | py_long => "long"
  | py_float => "float"
  | py_bool => "bool"
  | py_NoneType => "NoneType"
  end.

(** [bool] derives from [int]; the other classes derive from [object] or
    from a class that no value here belongs to. *)
Definition pyclass_base (c : pyclass) : option pyclass :=
  match c with
  | py_bool => Some py_int
  | _ => None
  end.

Definition issubclass (a b : pyclass) : bool :=
  pyclass_eqb a b ||
  match pyclass_base a with
  | Some c => pyclass_eqb c b
  | None => false
  end.

(** A [str] is a byte string; a [unicode] is a sequence of code points; a
    finite [float] is [m * 2^e]. *)
Inductive pyvalue :=
| PyStr (s : string)
| PyUnicode (code_points : list N)
| PyInt (z : Z)
| PyLong (z : Z)
| PyFloat (m e : Z)
| PyBool (b : bool)
| PyNone.

(** [type(value)], which is also [value.__class__] *)
Definition type (value : pyvalue) : pyclass :=
  match value with
  | PyStr _ => py_str
  | PyUnicode _ => py_unicode
  | PyInt _ => py_int
  | PyLong _ => py_long
  | PyFloat _ _ => py_float
  | PyBool _ => py_bool
  | PyNone => py_NoneType
  end.

(** ** Exceptions and results *)

(** An argument handed to an exception constructor: a string, or the list of
    classes in [EXPECTED_CLASS]. *)
Inductive exn_arg :=
| AStr (s : string)
| AClasses (l : list pyclass).

Inductive exn :=
| DataValidationException (args : list exn_arg)
| UnicodeEncodeError
| AttributeError (attr : string)
| NameError (name : string)
| PyException (args : list exn_arg)
| OutsideModel.

Inductive result (A : Type) :=
| Returns (a : A)
| Raises (e : exn).
Arguments Returns {A} a.
Arguments Raises {A} e.

Definition bind {A B} (r : result A) (k : A -> result B) : result B :=
  match r with
  | Returns a => k a
  | Raises e => Raises e
  end.

Notation "x <- r ;; k" := (bind r (fun x => k))
  (at level 100, r at next level, right associativity).

(** [e.args[0]] when there is one: the text the constructor was given first. *)
Definition exn_text (e : exn) : option string :=
  match e with
  | DataValidationException (AStr t :: _) => Some t
  | _ => None
  end.

(** [e.message] of Python 2: the single constructor argument, and the empty
    string when the constructor got none or several. *)
Definition exn_message (e : exn) : option exn_arg :=
  match e with
  | DataValidationException [a] => Some a
  | DataValidationException _ => Some (AStr "")
  | _ => None
  end.

(** ** [str(value)] *)

(** The default codec is ASCII: a [unicode] converts only when every code
    point is below 128. *)
Fixpoint encode_ascii (code_points : list N) : result string :=
  match code_points with
  | [] => Returns ""
  | n :: rest =>
      if (n <? 128)%N
      then s <- encode_ascii rest ;; Returns (String (ascii_of_N n) s)
      else Raises UnicodeEncodeError
  end.

(** ** Regular expressions

    The two compiled patterns of the source, as the trees [re.compile] builds
    for them, and [pattern.match]: a backtracking search anchored at the
    start of the subject and free at its end. *)

Inductive charset_item :=
| Literal (c : ascii)
| Range (lo hi : ascii)
| CategoryDigit.

Inductive regex :=
| OneOf (items : list charset_item)
| Cat (r1 r2 : regex)
| MaxRepeat (lo : nat) (hi : option nat) (r : regex).

Definition ascii_le (a b : ascii) : bool := (N_of_ascii a <=? N_of_ascii b)%N.

(** Without the [UNICODE] flag, [\d] is [[0-9]]. *)
Definition is_digit (c : ascii) : bool := ascii_le "0" c && ascii_le c "9".

Definition item_matches (i : charset_item) (c : ascii) : bool :=
  match i with
  | Literal l => Ascii.eqb l c
  | Range lo hi => ascii_le lo c && ascii_le c hi
  | CategoryDigit => is_digit c
  end.

Definition in_charset (items : list charset_item) (c : ascii) : bool :=
  existsb (fun i => item_matches i c) items.

(** Greedy repetition: one more round of [step] is tried before stopping is;
    stopping is allowed once the lower bound is used up. *)
Fixpoint repeat_from (step : string -> list string) (lo rounds : nat)
    (s : string) : list string :=
  match rounds with
  | O => if (lo =? 0)%nat then [s] else []
  | S rounds' =>
      flat_map (repeat_from step (Nat.pred lo) rounds') (step s)
        ++ (if (lo =? 0)%nat then [s] else [])
  end.

(** What is left of the subject after each way of matching [r] at its start,
    in the order the search tries them.  A repetition without upper bound
    needs no more rounds than the subject has characters. *)
Fixpoint residuals (r : regex) (s : string) : list string :=
  match r with
  | OneOf items =>
      match s with
      | String c s' => if in_charset items c then [s'] else []
      | EmptyString => []
      end
  | Cat r1 r2 => flat_map (residuals r2) (residuals r1 s)
  | MaxRepeat lo hi r1 =>
      repeat_from (residuals r1) lo
        (match hi with Some h => h | None => String.length s end) s
  end.

(** [bool(pattern.match(s))] *)
Definition re_match (r : regex) (s : string) : bool :=
  match residuals r s with
  | [] => false
  | _ :: _ => true
  end.

(** ['(\d{1,3}\.){3}\d{1,3}'] *)
Definition IP_REGEX : regex :=
  Cat (MaxRepeat 3 (Some 3%nat)
         (Cat (MaxRepeat 1 (Some 3%nat) (OneOf [CategoryDigit]))
              (OneOf [Literal "."])))
      (MaxRepeat 1 (Some 3%nat) (OneOf [CategoryDigit])).

(** ['[A-Fa-f0-9]+'] *)
Definition B64_REGEX : regex :=
  MaxRepeat 1 None (OneOf [Range "A" "F"; Range "a" "f"; Range "0" "9"]).

(** The language of a pattern, independently of any search order. *)
Fixpoint join (ps : list string) : string :=
  match ps with
  | [] => ""
  | p :: ps' => p +:+ join ps'
  end.

Fixpoint matches (r : regex) (p : string) : Prop :=
  match r with
  | OneOf items => exists c, p = String c "" /\ in_charset items c = true
  | Cat r1 r2 => exists p1 p2, p = p1 +:+ p2 /\ matches r1 p1 /\ matches r2 p2
  | MaxRepeat lo hi r1 =>
      exists ps, p = join ps /\ (lo <= length ps)%nat /\
                 match hi with Some h => (length ps <= h)%nat | None => True end /\
                 Forall (matches r1) ps
  end.

(** Whether a pattern can match the empty string, and whether every unbounded
    repetition in it consumes a character per round. *)
Fixpoint nullable (r : regex) : bool :=
  match r with
  | OneOf _ => false
  | Cat r1 r2 => nullable r1 && nullable r2
  | MaxRepeat lo _ r1 => (lo =? 0)%nat || nullable r1
  end.

Fixpoint productive (r : regex) : bool :=
  match r with
  | OneOf _ => true
  | Cat r1 r2 => productive r1 && productive r2
  | MaxRepeat _ hi r1 =>
      productive r1 && match hi with Some _ => true | None => negb (nullable r1) end
  end.

(** The shapes the two patterns are meant to recognise, stated on the
    subject itself: a run of one to three digits, four such runs separated by
    dots at the start of the subject, and a leading hex digit. *)
Fixpoint string_forallb (P : ascii -> bool) (s : string) : bool :=
  match s with
  | EmptyString => true
  | String c s' => P c && string_forallb P s'
  end.

Definition digit_run (d : string) : Prop :=
  (1 <= String.length d <= 3)%nat /\ string_forallb is_digit d = true.

Definition dotted_quad_prefix (s : string) : Prop :=
  exists a b c d rest,
    digit_run a /\ digit_run b /\ digit_run c /\ digit_run d /\
    s = a +:+ "." +:+ b +:+ "." +:+ c +:+ "." +:+ d +:+ rest.

Definition hex_char (c : ascii) : Prop :=
  let n := N_of_ascii c in
  (65 <= n <= 70 \/ 97 <= n <= 102 \/ 48 <= n <= 57)%N.

Definition hex_prefix (s : string) : Prop :=
  exists c rest, s = String c rest /\ hex_char c.

(** A one-character string whose character satisfies [P]. *)
Definition single (P : ascii -> bool) (p : string) : Prop :=
  exists c, p = String c "" /\ P c = true.

(** ** The catalog of leaf classes *)

(** Each class statement of the source, [Leaf] itself apart: [Leaf] declares
    methods only and is the base every chain ends in. *)
Module Kind.
Inductive t :=
| AnalyzedString | String | IPv4Address
| Integer | Byte | Short | Long
| Float | Double | Boolean
| Binary | IndexedBinary | DateTime.
End Kind.

(** The class named in parentheses by the class statement; [None] stands for
    [Leaf]. *)
Definition base (k : Kind.t) : option Kind.t :=
  match k with
  | Kind.Byte | Kind.Short | Kind.Long => Some Kind.Integer
  | Kind.Double => Some Kind.Float
  | Kind.IndexedBinary => Some Kind.Binary
  | _ => None
  end.

(** [cls.__name__] *)
Definition __name__ (k : Kind.t) : string :=
  match k with
  | Kind.AnalyzedString => "AnalyzedString"
  | Kind.String => "String"
  | Kind.IPv4Address => "IPv4Address"
  | Kind.Integer => "Integer"
  | Kind.Byte => "Byte"
  | Kind.Short => "Short"
  | Kind.Long => "Long"
  | Kind.Float => "Float"
  | Kind.Double => "Double"
  | Kind.Boolean => "Boolean"
  | Kind.Binary => "Binary"
  | Kind.IndexedBinary => "IndexedBinary"
  | Kind.DateTime => "DateTime"
  end.

(** Modelled from the spec: [Keyable], the base class of [Leaf], is declared
    in the [keys] module, which is not among the sources.  The spec describes
    it as the key-formatting utility producing per-backend field names, so it
    contributes the formatting operations above and no class attribute. *)
Definition Keyable_attribute {A : Type} : option A := None.

(** [Leaf] declares no class attribute of its own, so a read that reaches it
    continues in [Keyable]. *)
Definition Leaf_attribute {A : Type} : option A := Keyable_attribute.

(** Attribute read on a class: the class's own binding if it has one, else its
    base's, else [Leaf]'s.  The chains are at most two classes deep. *)
Definition getattr {A : Type} (own : Kind.t -> option A) (k : Kind.t) : option A :=
  match own k with
  | Some a => Some a
  | None =>
      match base k with
      | Some b =>
          match own b with
          | Some a => Some a
          | None => Leaf_attribute
          end
      | None => Leaf_attribute
      end
  end.

(** The class attributes, each as bound in the body of the class itself. *)

Definition own_ES_TYPE (k : Kind.t) : option string :=
  match k with
  | Kind.AnalyzedString => Some "string"
  | Kind.String => Some "string"
  | Kind.IPv4Address => Some "ip"
  | Kind.Integer => Some "integer"
  | Kind.Byte => Some "byte"
  | Kind.Short => Some "short"
  | Kind.Long => Some "long"
  | Kind.Float => Some "float"
  | Kind.Double => Some "double"
  | Kind.Boolean => Some "boolean"
  | Kind.Binary => Some "binary"
  | Kind.IndexedBinary => Some "binary"
  | Kind.DateTime => Some "datetime"
  end.

Definition own_BQ_TYPE (k : Kind.t) : option string :=
  match k with
  | Kind.AnalyzedString => Some "STRING"
  | Kind.String => Some "STRING"
  | Kind.IPv4Address => Some "STRING"
  | Kind.Integer => Some "INTEGER"
  | Kind.Long => Some "DOUBLE"
  | Kind.Float => Some "DOUBLE"
  | Kind.Double => Some "DOUBLE"
  | Kind.Boolean => Some "BOOLEAN"
  | Kind.Binary => Some "STRING"
  | Kind.IndexedBinary => Some "STRING"
  | Kind.DateTime => Some "TIMESTAMP"
  | Kind.Byte | Kind.Short => None
  end.

Definition own_ES_INDEX_TYPE (k : Kind.t) : option string :=
  match k with
  | Kind.AnalyzedString => Some "analyzed"
  | Kind.String => Some "not_analyzed"
  | Kind.Binary => Some "no"
  | Kind.IndexedBinary => Some "not_analyzed"
  | _ => None
  end.

Definition own_EXPECTED_CLASS (k : Kind.t) : option (list pyclass) :=
  match k with
  | Kind.AnalyzedString => Some [py_str]
  | Kind.String => Some [py_str]
  | Kind.IPv4Address => Some [py_str]
  | Kind.Integer => Some [py_int]
  | Kind.Long => Some [py_int; py_long]
  | Kind.Float => Some [py_float]
  | Kind.Boolean => Some [py_bool]
  | Kind.Binary => Some [py_str]
  | Kind.DateTime => Some [py_str; py_int]
  | Kind.Byte | Kind.Short | Kind.Double | Kind.IndexedBinary => None
  end.

Definition own_BITS (k : Kind.t) : option Z :=
  match k with
  | Kind.Integer => Some 32
  | Kind.Byte => Some 8
  | Kind.Short => Some 16
  | Kind.Long => Some 64
  | _ => None
  end.

Definition own_IP_REGEX (k : Kind.t) : option regex :=
  match k with
  | Kind.IPv4Address => Some IP_REGEX
  | _ => None
  end.

Definition own_B64_REGEX (k : Kind.t) : option regex :=
  match k with
  | Kind.Binary => Some B64_REGEX
  | _ => None
  end.

(** The classes whose body defines a [_validate] method. *)
Inductive hook :=
| IPv4Address__validate_hook
| Integer__validate_hook
| Binary__validate_hook
| DateTime__validate_hook.

Definition own__validate (k : Kind.t) : option hook :=
  match k with
  | Kind.IPv4Address => Some IPv4Address__validate_hook
  | Kind.Integer => Some Integer__validate_hook
  | Kind.Binary => Some Binary__validate_hook
  | Kind.DateTime => Some DateTime__validate_hook
  | _ => None
  end.

Definition ES_TYPE := getattr own_ES_TYPE.
Definition BQ_TYPE := getattr own_BQ_TYPE.
Definition ES_INDEX_TYPE := getattr own_ES_INDEX_TYPE.
Definition EXPECTED_CLASS := getattr own_EXPECTED_CLASS.
Definition BITS := getattr own_BITS.

Definition VALID_ES_INDEX_TYPES : list string :=
  ["analyzed"; "not_analyzed"; "no"].

Definition VALID_LEAVES : list Kind.t :=
  [ Kind.DateTime; Kind.AnalyzedString; Kind.String; Kind.Binary;
    Kind.IndexedBinary; Kind.Boolean; Kind.Double; Kind.Float; Kind.Long;
    Kind.Short; Kind.Byte; Kind.Integer; Kind.IPv4Address ].

Definition integer_family : list Kind.t :=
  [Kind.Integer; Kind.Byte; Kind.Short; Kind.Long].

(** [type(value) in cls.EXPECTED_CLASS] *)
Definition accepted (k : Kind.t) (value : pyvalue) : bool :=
  match EXPECTED_CLASS k with
  | Some classes => existsb (pyclass_eqb (type value)) classes
  | None => false
  end.

(** The number an [int] or a [long] stands for. *)
Definition int_value (value : pyvalue) : option Z :=
  match value with
  | PyInt z | PyLong z => Some z
  | _ => None
  end.

(** What the integer rule prescribes for the number [z] at width [bits]:
    the call returns exactly within the bounds, and reports the bound that
    was crossed otherwise. *)
Definition bounds_outcome (bits z : Z) (name : string) (outcome : result unit)
    : Prop :=
  (outcome = Returns tt <-> - 2 ^ bits + 1 <= z <= 2 ^ bits - 1) /\
  (2 ^ bits - 1 < z ->
   outcome = Raises (DataValidationException
                       [AStr "%s: %s is larger than max (%s)";
                        AStr name; AStr (pretty z);
                        AStr (pretty (2 ^ bits - 1))])) /\
  (z < - 2 ^ bits + 1 ->
   outcome = Raises (DataValidationException
                       [AStr "%s: %s is smaller than min (%s)";
                        AStr name; AStr (pretty z);
                        AStr (pretty (- 2 ^ bits + 1))])).

(** ** Text helpers of the display methods *)

(** [str.lower] on a byte string: the letters [A-Z] move to [a-z]. *)
Definition ascii_lower (c : ascii) : ascii :=
  if ascii_le "A" c && ascii_le c "Z"
  then ascii_of_N (N_of_ascii c + 32)
  else c.

Fixpoint lower (s : string) : string :=
  match s with
  | EmptyString => EmptyString
  | String c s' => String (ascii_lower c) (lower s')
  end.

(** [s * n] for a string and an integer: empty when [n] is not positive. *)
Fixpoint str_repeat (s : string) (n : nat) : string :=
  match n with
  | O => ""
  | S n' => s +:+ str_repeat s n'
  end.

Definition str_mul (s : string) (n : Z) : string := str_repeat s (Z.to_nat n).

Definition tab : string := String (ascii_of_N 9) "".
Definition newline : string := String (ascii_of_N 10) "".

(** [template % args] for a template whose only directive is [%s], the one
    the source uses, and string arguments; [None] when the number of
    arguments and of directives differ, where Python raises [TypeError]. *)
Fixpoint percent_format (template : string) (args : list string)
    : option string :=
  match template with
  | EmptyString =>
      match args with
      | [] => Some ""
      | _ :: _ => None
      end
  | String c rest =>
      match rest with
      | String d rest' =>
          if Ascii.eqb c "%" && Ascii.eqb d "s"
          then match args with
               | a :: args' =>
                   option_map (String.append a) (percent_format rest' args')
               | [] => None
               end
          else option_map (String c) (percent_format rest args)
      | EmptyString => option_map (String c) (percent_format rest args)
      end
  end.

(** The octets of a dotted-decimal address, written in decimal. *)
Definition dotted_decimal (a b c d : N) : string :=
  pretty a +:+ "." +:+ pretty b +:+ "." +:+ pretty c +:+ "." +:+ pretty d.

Definition digit_runb (d : string) : bool :=
  (1 <=? String.length d)%nat && (String.length d <=? 3)%nat
  && string_forallb is_digit d.

(** The catalog's kinds whose class defines and inherits no [_validate]. *)
Definition hookless : list Kind.t :=
  [Kind.AnalyzedString; Kind.String; Kind.Float; Kind.Double; Kind.Boolean].

(** ** A concrete environment

    One choice of the collaborators, for closed instances of the statements
    below: keys that are already strings are left as they are, integral
    floats print with one decimal, the parser knows the canonical timestamp
    only, and integers are 64 bits wide. *)
Module Sample.
Definition key (name : string) : string := name.
Definition float_str (m e : Z) : string := pretty (m * 2 ^ e) +:+ ".0".
Definition parse (value : pyvalue) : bool :=
  match value with
  | PyStr s => String.eqb s "Wed Jul  8 08:52:01 EDT 2015"
  | _ => false
  end.
Definition maxint : Z := 2 ^ 63 - 1.
End Sample.

Section Leaves.

(** The collaborators that [leaves.py] calls and does not define.  [Keyable],
    from the [keys] module, gives every leaf the methods [key_to_string] and
    [key_to_bq], reached through [self].  [Leaf.validate] also calls a bare
    [key_to_string] before it enters a hook: a module-level name, which only
    the star import of [keys] can bind, so it is either bound to a function
    or unbound.  [float.__str__] and [dateutil.parser.parse] belong to the
    interpreter and to a third-party package; of the parser only whether it
    returns or raises matters here.  [sys_maxint] separates [int] from [long]
    literals. *)
Variable Keyable_key_to_string : string -> string.
Variable Keyable_key_to_bq : string -> string.
Variable key_to_string : option (string -> string).
Variable float_str : Z -> Z -> string.
Variable dateutil_parser_parse : pyvalue -> bool.
Variable sys_maxint : Z.

Definition str (value : pyvalue) : result string :=
  match value with
  | PyStr s => Returns s
  | PyUnicode u => encode_ascii u
  | PyInt z | PyLong z => Returns (pretty z)
  | PyFloat m e => Returns (float_str m e)
  | PyBool true => Returns "True"
  | PyBool false => Returns "False"
  | PyNone => Returns "None"
  end.

(** An integer literal of the source text is an [int] when it fits and a
    [long] otherwise. *)
Definition int_literal (z : Z) : pyvalue :=
  if z <=? sys_maxint then PyInt z else PyLong z.

Definition own_VALID (k : Kind.t) : option pyvalue :=
  match k with
  | Kind.AnalyzedString => Some (PyStr "asdf")
  | Kind.String => Some (PyStr "asdf")
  | Kind.IPv4Address => Some (PyStr "141.212.120.0")
  | Kind.Integer => Some (int_literal 234234252)
  | Kind.Byte => Some (int_literal 34)
  | Kind.Short => Some (int_literal 65535)
  | Kind.Long => Some (PyLong 10)
  | Kind.Float => Some (PyFloat 5 1)
  | Kind.Boolean => Some (PyBool true)
  | Kind.Binary => Some (PyStr "03F87824")
  | Kind.DateTime => Some (PyStr "Wed Jul  8 08:52:01 EDT 2015")
  | Kind.Double | Kind.IndexedBinary => None
  end.

Definition own_INVALID (k : Kind.t) : option pyvalue :=
  match k with
  | Kind.AnalyzedString => Some (int_literal 23)
  | Kind.String => Some (int_literal 23)
  | Kind.IPv4Address => Some (PyStr "my string")
  | Kind.Integer => Some (int_literal 8589934592)
  | Kind.Byte => Some (int_literal (2 ^ 8 + 5))
  | Kind.Short => Some (int_literal (2 ^ 16))
  | Kind.Long => Some (PyLong (2 ^ 68))
  | Kind.Float => Some (PyStr "I'm a string!")
  | Kind.Boolean => Some (int_literal 0)
  | Kind.Binary => Some (PyStr "normal")
  | Kind.DateTime => Some (PyStr "Wed DNE  35 08:52:01 EDT 2015")
  | Kind.Double | Kind.IndexedBinary => None
  end.

Definition VALID := getattr own_VALID.
Definition INVALID := getattr own_INVALID.

(** ** Leaf instances and their methods *)

Record leaf := { __class__ : Kind.t; required : bool }.

(** [cls()] and [cls(required=...)] *)
Definition new (k : Kind.t) (required : option bool) : leaf :=
  {| __class__ := k;
     required := match required with Some b => b | None => false end |}.

Definition to_es (self : leaf) (name : string) : result unit := Returns tt.

Definition to_bigquery (self : leaf) (name : string)
    : result (gmap string string) :=
  let mode := if required self then "REQUIRED" else "NULLABLE" in
  match BQ_TYPE (__class__ self) with
  | None => Raises (AttributeError "BQ_TYPE")
  | Some bq_type =>
      Returns {[ "name" := Keyable_key_to_bq name;
                 "type" := bq_type;
                 "mode" := mode ]}
  end.

Definition _is_ipv4_addr (self : leaf) (ip : string) : result bool :=
  match getattr own_IP_REGEX (__class__ self) with
  | None => Raises (AttributeError "IP_REGEX")
  | Some r => Returns (re_match r ip)
  end.

Definition IPv4Address__validate (self : leaf) (name value : string)
    : result unit :=
  ok <- _is_ipv4_addr self value ;;
  if negb ok
  then Raises (DataValidationException
                 [AStr "%s: the value %s is not a valid IPv4 address";
                  AStr name; AStr value])
  else Returns tt.

Definition Integer__validate (self : leaf) (name : string) (value : Z)
    : result unit :=
  match BITS (__class__ self) with
  | None => Raises (AttributeError "BITS")
  | Some bits =>
      let max_ := 2 ^ bits - 1 in
      let min_ := - 2 ^ bits + 1 in
      if value >? max_
      then Raises (DataValidationException
                     [AStr "%s: %s is larger than max (%s)";
                      AStr name; AStr (pretty value); AStr (pretty max_)])
      else if value <? min_
      then Raises (DataValidationException
                     [AStr "%s: %s is smaller than min (%s)";
                      AStr name; AStr (pretty value); AStr (pretty min_)])
      else Returns tt
  end.

Definition _is_base64 (self : leaf) (data : string) : result bool :=
  match getattr own_B64_REGEX (__class__ self) with
  | None => Raises (AttributeError "B64_REGEX")
  | Some r => Returns (re_match r data)
  end.

Definition Binary__validate (self : leaf) (name value : string)
    : result unit :=
  ok <- _is_base64 self value ;;
  if negb ok
  then Raises (DataValidationException
                 [AStr "%s: the value %s is not valid Base64";
                  AStr name; AStr value])
  else Returns tt.

Definition DateTime__validate (self : leaf) (name : string) (value : pyvalue)
    : result unit :=
  if dateutil_parser_parse value
  then Returns tt
  else
    s <- str value ;;
    Raises (DataValidationException
              [AStr "%s: %s is not valid timestamp"; AStr name; AStr s]).

(** [self._validate(name, value)].  The integer hook compares numbers and
    the pattern hooks search a [str]; [OutsideModel] marks a call with any
    other value, which [validate] never makes
    ([validate_never_outside_model]). *)
Definition call__validate (h : hook) (self : leaf) (name : string)
    (value : pyvalue) : result unit :=
  match h, value with
  | IPv4Address__validate_hook, PyStr s => IPv4Address__validate self name s
  | Integer__validate_hook, PyInt z => Integer__validate self name z
  | Integer__validate_hook, PyLong z => Integer__validate self name z
  | Binary__validate_hook, PyStr s => Binary__validate self name s
  | DateTime__validate_hook, v => DateTime__validate self name v
  | _, _ => Raises OutsideModel
  end.

Definition class_mismatch_text : string :=
  "class mismatch for %s: expected %s, %s has class %s".

Definition validate (self : leaf) (name : string) (value : pyvalue)
    : result unit :=
  match EXPECTED_CLASS (__class__ self) with
  | None => Raises (AttributeError "EXPECTED_CLASS")
  | Some classes =>
      if negb (existsb (pyclass_eqb (type value)) classes)
      then
        s <- str value ;;
        Raises (DataValidationException
                  [AStr class_mismatch_text;
                   AStr (Keyable_key_to_string name);
                   AClasses classes;
                   AStr s;
                   AStr (pyclass_name (type value))])
      else
        match getattr own__validate (__class__ self) with
        | None => Returns tt
        | Some h =>
            match key_to_string with
            | None => Raises (NameError "key_to_string")
            | Some f => call__validate h self (f name) value
            end
        end
  end.

Definition to_string (self : leaf) (name : string) : option string :=
  percent_format "%s: %s"
    [Keyable_key_to_string name; lower (__name__ (__class__ self))].

(** [print val] appends the line to what was written so far. *)
Definition print_indent_string (self : leaf) (name : string) (indent : Z)
    (stdout : string) : string :=
  let val := Keyable_key_to_string name in
  let val := if negb (indent =? 0) then str_mul tab indent +:+ val else val in
  stdout +:+ val +:+ newline.

(** ** The unit tests of the module *)

Fixpoint test_valid_from (leaves : list Kind.t) : result unit :=
  match leaves with
  | [] => Returns tt
  | k :: rest =>
      match VALID k with
      | None => Raises (AttributeError "VALID")
      | Some v =>
          _ <- validate (new k None) (__name__ k) v ;;
          test_valid_from rest
      end
  end.

Definition test_valid : result unit := test_valid_from VALID_LEAVES.

Fixpoint test_invalid_from (leaves : list Kind.t) : result unit :=
  match leaves with
  | [] => Returns tt
  | k :: rest =>
      match INVALID k with
      | None => Raises (AttributeError "INVALID")
      | Some v =>
          match validate (new k None) (__name__ k) v with
          | Returns _ =>
              Raises (PyException [AStr "invalid value did not fail for %s";
                                   AStr (__name__ k)])
          | Raises (DataValidationException _) => test_invalid_from rest
          | Raises e => Raises e
          end
      end
  end.

Definition test_invalid : result unit := test_invalid_from VALID_LEAVES.

(** ** Strings *)

Lemma string_app_nil_l (a : string) : "" +:+ a = a.
Proof. reflexivity. Qed.

Lemma string_app_cons (x : ascii) (a b : string) :
  String x a +:+ b = String x (a +:+ b).
Proof. reflexivity. Qed.

Lemma string_app_assoc (a b c : string) : (a +:+ b) +:+ c = a +:+ (b +:+ c).
Proof.
  induction a as [|x a IH]; [reflexivity |].
  rewrite !string_app_cons. now rewrite IH.
Qed.

Lemma string_app_nil_r (a : string) : a +:+ "" = a.
Proof.
  induction a as [|x a IH]; [reflexivity |].
  rewrite string_app_cons. now rewrite IH.
Qed.

Lemma string_app_length (a b : string) :
  String.length (a +:+ b) = (String.length a + String.length b)%nat.
Proof.
  induction a as [|x a IH]; [reflexivity |].
  rewrite string_app_cons. simpl. now rewrite IH.
Qed.

Lemma string_app_empty (a b : string) : a +:+ b = "" -> a = "" /\ b = "".
Proof. destruct a; [auto | rewrite string_app_cons; discriminate]. Qed.

(** ** The search explores exactly the language *)

Lemma in_repeat_from (step : string -> list string) (L : string -> Prop) :
  (forall s s', In s' (step s) <-> exists p, L p /\ s = p +:+ s') ->
  forall rounds lo s s',
    In s' (repeat_from step lo rounds s) <->
    exists ps, Forall L ps /\ (lo <= length ps <= rounds)%nat /\ s = join ps +:+ s'.
Proof.
  intros Hstep. induction rounds as [|rounds IH]; intros lo s s'; simpl.
  - destruct (Nat.eqb_spec lo 0) as [-> | Hlo]; simpl; split.
    + intros [<- | []]. exists []. repeat split; auto.
    + intros ([|p ps] & _ & Hlen & Hs); simpl in *; [auto | lia].
    + intros [].
    + intros (ps & _ & Hlen & _). lia.
  - rewrite in_app_iff, in_flat_map. split.
    + intros [(s1 & Hs1 & Hin) | Hstop].
      * apply Hstep in Hs1 as (p & Hp & ->).
        apply IH in Hin as (ps & Hps & Hlen & ->).
        exists (p :: ps). simpl. rewrite string_app_assoc.
        repeat split; [constructor; assumption | lia | lia].
      * destruct (Nat.eqb_spec lo 0) as [-> | Hlo]; [| destruct Hstop].
        destruct Hstop as [<- | []]. exists []. simpl. repeat split; auto; lia.
    + intros ([|p ps] & Hps & Hlen & Hs); simpl in *.
      * right. replace lo with 0%nat by lia. simpl. auto.
      * left. inversion Hps as [|? ? Hp Hps']; subst.
        exists (join ps +:+ s'). split.
        -- apply Hstep. exists p. now rewrite string_app_assoc.
        -- apply IH. exists ps. repeat split; [assumption | lia | lia].
Qed.

Lemma nullable_sound (r : regex) : nullable r = false -> ~ matches r "".
Proof.
  induction r as [items | r1 IH1 r2 IH2 | lo hi r IH]; simpl; intros Hn.
  - intros (c & Hc & _). discriminate.
  - intros (p1 & p2 & Hp & H1 & H2). symmetry in Hp.
    apply string_app_empty in Hp as [-> ->].
    apply andb_false_iff in Hn as [Hn | Hn]; [now apply IH1 | now apply IH2].
  - apply orb_false_iff in Hn as [Hlo Hr].
    apply Nat.eqb_neq in Hlo.
    intros ([|p ps] & Hp & Hlen & _ & Hall); simpl in *; [lia |].
    symmetry in Hp. apply string_app_empty in Hp as [-> _].
    inversion Hall; subst. now apply IH.
Qed.

Lemma join_length_lower (L : string -> Prop) (ps : list string) :
  ~ L "" -> Forall L ps -> (length ps <= String.length (join ps))%nat.
Proof.
  intros Hne. induction 1 as [|p ps Hp _ IH]; simpl; [lia |].
  rewrite string_app_length. destruct p; [contradiction | simpl; lia].
Qed.

Theorem residuals_spec (r : regex) :
  productive r = true ->
  forall s s', In s' (residuals r s) <-> exists p, matches r p /\ s = p +:+ s'.
Proof.
  induction r as [items | r1 IH1 r2 IH2 | lo hi r IH]; simpl; intros Hprod s s'.
  - destruct s as [|c s]; simpl.
    + split; [intros [] | intros (p & (c & -> & _) & Hs); discriminate].
    + destruct (in_charset items c) eqn:Hc; simpl; split.
      * intros [<- | []]. exists (String c ""). split; [exists c; auto | reflexivity].
      * intros (p & (c' & -> & _) & Hs).
        rewrite string_app_cons, string_app_nil_l in Hs. left. congruence.
      * intros [].
      * intros (p & (c' & -> & Hc') & Hs).
        rewrite string_app_cons, string_app_nil_l in Hs. congruence.
  - apply andb_true_iff in Hprod as [Hp1 Hp2].
    rewrite in_flat_map. split.
    + intros (s1 & Hs1 & Hs2).
      apply (IH1 Hp1) in Hs1 as (p1 & Hm1 & ->).
      apply (IH2 Hp2) in Hs2 as (p2 & Hm2 & ->).
      exists (p1 +:+ p2). split; [exists p1, p2; auto | now rewrite string_app_assoc].
    + intros (p & (p1 & p2 & -> & Hm1 & Hm2) & ->).
      exists (p2 +:+ s'). split.
      * apply (IH1 Hp1). exists p1. now rewrite string_app_assoc.
      * apply (IH2 Hp2). exists p2. auto.
  - apply andb_true_iff in Hprod as [Hp Hhi].
    rewrite (in_repeat_from (residuals r) (matches r) (IH Hp)).
    split.
    + intros (ps & Hall & Hlen & ->). exists (join ps). split; [| reflexivity].
      exists ps. split; [reflexivity |]. split; [lia |]. split; [| assumption].
      destruct hi; [lia | exact I].
    + intros (p & (ps & -> & Hlo & Hup & Hall) & ->).
      exists ps. split; [assumption |]. split; [| reflexivity]. split; [assumption |].
      destruct hi as [h|]; [assumption |].
      apply negb_true_iff in Hhi.
      pose proof (join_length_lower _ ps (nullable_sound r Hhi) Hall).
      rewrite string_app_length. lia.
Qed.

Lemma re_match_spec (r : regex) (s : string) :
  productive r = true ->
  re_match r s = true <-> exists p rest, matches r p /\ s = p +:+ rest.
Proof.
  intros Hprod. unfold re_match. split.
  - destruct (residuals r s) as [|s' l] eqn:Hres; [discriminate |]. intros _.
    assert (Hin : In s' (residuals r s)) by (rewrite Hres; now left).
    apply (residuals_spec r Hprod) in Hin as (p & Hm & Hs). eauto.
  - intros (p & rest & Hm & Hs).
    assert (Hin : In rest (residuals r s)) by (apply (residuals_spec r Hprod); eauto).
    destruct (residuals r s); [destruct Hin | reflexivity].
Qed.

(** ** The two patterns *)

Lemma join_singles (P : ascii -> bool) (ps : list string) :
  Forall (single P) ps ->
  String.length (join ps) = length ps /\ string_forallb P (join ps) = true.
Proof.
  induction 1 as [|p ps (c & -> & Hc) _ [IHlen IHall]]; simpl; [auto |].
  rewrite ?string_app_cons, ?string_app_nil_l. simpl.
  rewrite IHlen, Hc, IHall. auto.
Qed.

Lemma singles_of (P : ascii -> bool) (d : string) :
  string_forallb P d = true ->
  exists ps, d = join ps /\ length ps = String.length d /\ Forall (single P) ps.
Proof.
  induction d as [|c d IH]; simpl; intros Hall.
  - exists []. auto.
  - apply andb_true_iff in Hall as [Hc Hd].
    destruct (IH Hd) as (ps & -> & Hlen & Hps).
    exists (String c "" :: ps). simpl. rewrite Hlen. repeat split; auto.
    constructor; [exists c; auto | assumption].
Qed.

Lemma in_charset_digit (c : ascii) : in_charset [CategoryDigit] c = is_digit c.
Proof. unfold in_charset. simpl. apply orb_false_r. Qed.

Lemma in_charset_dot (c : ascii) :
  in_charset [Literal "."] c = true <-> c = "."%char.
Proof.
  unfold in_charset, existsb, item_matches. rewrite orb_false_r.
  destruct (Ascii.eqb_spec "." c); split; congruence.
Qed.

Lemma matches_digit_run (d : string) :
  matches (MaxRepeat 1 (Some 3%nat) (OneOf [CategoryDigit])) d <-> digit_run d.
Proof.
  unfold digit_run.
  change (matches (MaxRepeat 1 (Some 3%nat) ?r) d) with
    (exists ps, d = join ps /\ (1 <= length ps)%nat /\ (length ps <= 3)%nat /\
                Forall (single (in_charset [CategoryDigit])) ps).
  split.
  - intros (ps & -> & Hlo & Hhi & Hall).
    assert (Hs : Forall (single is_digit) ps).
    { eapply Forall_impl; [exact Hall |].
      intros p (c & -> & Hc). exists c. now rewrite <- in_charset_digit. }
    destruct (join_singles _ _ Hs) as [Hlen Hdig]. rewrite Hlen. auto.
  - intros [Hlen Hdig]. destruct (singles_of _ _ Hdig) as (ps & -> & Hl & Hps).
    exists ps. rewrite Hl. repeat split; try lia.
    eapply Forall_impl; [exact Hps |].
    intros p (c & -> & Hc). exists c. now rewrite in_charset_digit.
Qed.

Lemma matches_dot (p : string) : matches (OneOf [Literal "."]) p <-> p = ".".
Proof.
  change (matches (OneOf ?i) p) with (single (in_charset i) p). split.
  - intros (c & -> & Hc). apply in_charset_dot in Hc. now subst.
  - intros ->. exists "."%char. split; reflexivity.
Qed.

Lemma matches_octet_dot (p : string) :
  matches (Cat (MaxRepeat 1 (Some 3%nat) (OneOf [CategoryDigit]))
               (OneOf [Literal "."])) p <->
  exists a, digit_run a /\ p = a +:+ ".".
Proof.
  change (matches (Cat ?r1 ?r2) p) with
    (exists p1 p2, p = p1 +:+ p2 /\ matches r1 p1 /\ matches r2 p2).
  split.
  - intros (p1 & p2 & -> & H1 & H2). apply matches_dot in H2 as ->.
    apply matches_digit_run in H1. eauto.
  - intros (a & Ha & ->). exists a, ".". repeat split.
    + now apply matches_digit_run.
    + now apply matches_dot.
Qed.

Lemma matches_Cat (r1 r2 : regex) (p : string) :
  matches (Cat r1 r2) p <->
  exists p1 p2, p = p1 +:+ p2 /\ matches r1 p1 /\ matches r2 p2.
Proof. reflexivity. Qed.

Lemma matches_MaxRepeat (lo : nat) (hi : option nat) (r : regex) (p : string) :
  matches (MaxRepeat lo hi r) p <->
  exists ps, p = join ps /\ (lo <= length ps)%nat /\
             match hi with Some h => (length ps <= h)%nat | None => True end /\
             Forall (matches r) ps.
Proof. reflexivity. Qed.

Lemma matches_IP_REGEX (p : string) :
  matches IP_REGEX p <->
  exists a b c d,
    digit_run a /\ digit_run b /\ digit_run c /\ digit_run d /\
    p = a +:+ "." +:+ b +:+ "." +:+ c +:+ "." +:+ d.
Proof.
  unfold IP_REGEX. rewrite matches_Cat. split.
  - intros (p1 & p2 & -> & Hrep & Hd).
    apply matches_MaxRepeat in Hrep as (ps & -> & Hlo & Hhi & Hall).
    destruct ps as [|x [|y [|z [|w ps]]]]; simpl in Hlo, Hhi; try lia.
    inversion Hall as [|? ? Hx Hall1]; subst.
    inversion Hall1 as [|? ? Hy Hall2]; subst.
    inversion Hall2 as [|? ? Hz _]; subst.
    apply matches_octet_dot in Hx as (a & Ha & ->).
    apply matches_octet_dot in Hy as (b & Hb & ->).
    apply matches_octet_dot in Hz as (c & Hc & ->).
    apply matches_digit_run in Hd.
    exists a, b, c, p2. repeat (split; [assumption |]).
    simpl. rewrite string_app_nil_r, !string_app_assoc. reflexivity.
  - intros (a & b & c & d & Ha & Hb & Hc & Hd & ->).
    exists (a +:+ "." +:+ b +:+ "." +:+ c +:+ "."), d. split; [| split].
    + rewrite !string_app_assoc. reflexivity.
    + apply matches_MaxRepeat.
      exists [a +:+ "."; b +:+ "."; c +:+ "."]. simpl.
      rewrite string_app_nil_r, !string_app_assoc.
      repeat split; try lia.
      repeat constructor; apply matches_octet_dot; eauto.
    + now apply matches_digit_run.
Qed.

Theorem IP_REGEX_match_iff (s : string) :
  re_match IP_REGEX s = true <-> dotted_quad_prefix s.
Proof.
  rewrite re_match_spec by reflexivity. unfold dotted_quad_prefix. split.
  - intros (p & rest & Hm & ->).
    apply matches_IP_REGEX in Hm as (a & b & c & d & Ha & Hb & Hc & Hd & ->).
    exists a, b, c, d, rest. repeat (split; [assumption |]).
    rewrite !string_app_assoc. reflexivity.
  - intros (a & b & c & d & rest & Ha & Hb & Hc & Hd & ->).
    exists (a +:+ "." +:+ b +:+ "." +:+ c +:+ "." +:+ d), rest. split.
    + apply matches_IP_REGEX. exists a, b, c, d. auto.
    + rewrite !string_app_assoc. reflexivity.
Qed.

Lemma in_charset_hex (c : ascii) :
  in_charset [Range "A" "F"; Range "a" "f"; Range "0" "9"] c = true <-> hex_char c.
Proof.
  unfold in_charset, hex_char, item_matches, ascii_le. simpl existsb.
  rewrite orb_false_r, !orb_true_iff, !andb_true_iff, !N.leb_le.
  change (N_of_ascii "A") with 65%N. change (N_of_ascii "F") with 70%N.
  change (N_of_ascii "a") with 97%N. change (N_of_ascii "f") with 102%N.
  change (N_of_ascii "0") with 48%N. change (N_of_ascii "9") with 57%N.
  cbv zeta. lia.
Qed.

Theorem B64_REGEX_match_iff (s : string) :
  re_match B64_REGEX s = true <-> hex_prefix s.
Proof.
  rewrite re_match_spec by reflexivity. unfold hex_prefix, B64_REGEX.
  split.
  - intros (p & rest & Hrep & ->).
    apply matches_MaxRepeat in Hrep as (ps & -> & Hlo & _ & Hall).
    destruct ps as [|x ps]; simpl in Hlo; [lia |].
    inversion Hall as [|? ? (c & -> & Hc) _]; subst.
    exists c, (join ps +:+ rest). split.
    + simpl. rewrite string_app_assoc. reflexivity.
    + now apply in_charset_hex.
  - intros (c & rest & -> & Hc).
    exists (String c ""), rest. split; [| reflexivity].
    apply matches_MaxRepeat.
    exists [String c ""]. simpl. repeat split; auto.
    constructor; [| constructor]. exists c. split; [reflexivity |].
    now apply in_charset_hex.
Qed.


(** ** The class check *)

Lemma EXPECTED_CLASS_defined (k : Kind.t) :
  exists classes, EXPECTED_CLASS k = Some classes.
Proof. destruct k; eexists; reflexivity. Qed.

Lemma encode_ascii_raises (u : list N) (e : exn) :
  encode_ascii u = Raises e -> e = UnicodeEncodeError.
Proof.
  revert e. induction u as [|n u IH]; intros e; simpl; [discriminate |].
  destruct (n <? 128)%N; [| congruence].
  destruct (encode_ascii u) as [s | e'] eqn:Hu; simpl; [discriminate |].
  intros [= <-]. now apply IH.
Qed.

Lemma str_raises (value : pyvalue) (e : exn) :
  str value = Raises e ->
  e = UnicodeEncodeError /\ exists u, value = PyUnicode u.
Proof.
  destruct value as [s | u | z | z | m x | [|] |]; simpl; try discriminate.
  intros H. split; [now apply (encode_ascii_raises u) | eauto].
Qed.

Lemma str_returns (value : pyvalue) :
  type value <> py_unicode -> exists s, str value = Returns s.
Proof.
  destruct value as [s | u | z | z | m x | [|] |]; simpl; intros Hty;
    try (eexists; reflexivity).
  now destruct Hty.
Qed.

(** A value of a class outside [EXPECTED_CLASS] never reaches a hook: the
    outcome is the exception built from [str(value)], or whatever [str]
    itself raises. *)
Lemma validate_class_mismatch (self : leaf) (name : string) (value : pyvalue)
    (classes : list pyclass) :
  EXPECTED_CLASS (__class__ self) = Some classes ->
  accepted (__class__ self) value = false ->
  validate self name value =
    (s <- str value ;;
     Raises (DataValidationException
               [AStr class_mismatch_text;
                AStr (Keyable_key_to_string name);
                AClasses classes;
                AStr s;
                AStr (pyclass_name (type value))])).
Proof.
  unfold validate, accepted. intros ->. now intros ->.
Qed.

Lemma validate_class_match (self : leaf) (name : string) (value : pyvalue) :
  accepted (__class__ self) value = true ->
  validate self name value =
    match getattr own__validate (__class__ self) with
    | None => Returns tt
    | Some h =>
        match key_to_string with
        | None => Raises (NameError "key_to_string")
        | Some f => call__validate h self (f name) value
        end
    end.
Proof.
  unfold validate, accepted.
  destruct (EXPECTED_CLASS (__class__ self)); [| discriminate]. now intros ->.
Qed.

(** Without a module-level [key_to_string], a call that passes the class
    check of a leaf with a hook stops at the unbound name. *)
Lemma validate_unbound_key_to_string (self : leaf) (name : string)
    (value : pyvalue) (h : hook) :
  key_to_string = None ->
  accepted (__class__ self) value = true ->
  getattr own__validate (__class__ self) = Some h ->
  validate self name value = Raises (NameError "key_to_string").
Proof.
  intros Hnone Hacc Hh.
  now rewrite (validate_class_match _ _ _ Hacc), Hh, Hnone.
Qed.

(** The hooks are entered with values of the classes they are written for. *)
Lemma validate_never_outside_model (self : leaf) (name : string)
    (value : pyvalue) :
  validate self name value <> Raises OutsideModel.
Proof.
  destruct (accepted (__class__ self) value) eqn:Hacc.
  - rewrite (validate_class_match _ _ _ Hacc).
    destruct self as [k r].
    destruct key_to_string as [f|], k, value;
      try discriminate Hacc; try discriminate;
      unfold getattr, own__validate, base, call__validate, __class__;
      unfold IPv4Address__validate, Binary__validate, Integer__validate,
        DateTime__validate, _is_ipv4_addr, _is_base64, bind, BITS, getattr,
        own_IP_REGEX, own_B64_REGEX, own_BITS, base, __class__, str;
      repeat match goal with
             | |- context [if ?b then _ else _] => destruct b
             end; discriminate.
  - destruct (EXPECTED_CLASS_defined (__class__ self)) as [classes Hcl].
    rewrite (validate_class_mismatch _ _ _ _ Hcl Hacc).
    destruct (str value) as [s | e] eqn:Hstr; simpl; [discriminate |].
    apply str_raises in Hstr as [-> _]. discriminate.
Qed.


(** ** Class mismatches *)

Lemma class_mismatch_raises (self : leaf) (name : string) (value : pyvalue) :
  accepted (__class__ self) value = false ->
  type value <> py_unicode ->
  exists classes s,
    EXPECTED_CLASS (__class__ self) = Some classes /\
    str value = Returns s /\
    validate self name value =
      Raises (DataValidationException
                [AStr class_mismatch_text;
                 AStr (Keyable_key_to_string name);
                 AClasses classes;
                 AStr s;
                 AStr (pyclass_name (type value))]).
Proof.
  intros Hacc Hty.
  destruct (EXPECTED_CLASS_defined (__class__ self)) as [classes Hcl].
  destruct (str_returns value Hty) as [s Hs].
  exists classes, s. repeat split; try assumption.
  rewrite (validate_class_mismatch _ _ _ _ Hcl Hacc), Hs. reflexivity.
Qed.

Lemma class_mismatch_outcome (self : leaf) (name : string) (value : pyvalue) :
  accepted (__class__ self) value = false ->
  (exists args, validate self name value = Raises (DataValidationException args))
  \/ (validate self name value = Raises UnicodeEncodeError /\
      type value = py_unicode).
Proof.
  intros Hacc.
  destruct (EXPECTED_CLASS_defined (__class__ self)) as [classes Hcl].
  rewrite (validate_class_mismatch _ _ _ _ Hcl Hacc).
  destruct (str value) as [s | e] eqn:Hs; simpl.
  - left. eauto.
  - right. apply str_raises in Hs as [-> [u ->]]. auto.
Qed.

(** C2: a value whose class is outside [EXPECTED_CLASS] is refused before any
    hook runs, but the refusal is not always a [DataValidationException]: on
    a [String] leaf, the [unicode] value of the single code point 233 is a
    class mismatch, and [validate] raises [UnicodeEncodeError], from the
    [str(value)] evaluated while the exception is being built. *)
Theorem validate_class_mismatch_non_ascii (r : bool) (name : string) :
  accepted Kind.String (PyUnicode [233%N]) = false /\
  validate {| __class__ := Kind.String; required := r |} name
    (PyUnicode [233%N]) = Raises UnicodeEncodeError.
Proof. split; reflexivity. Qed.

(** C8: on a class mismatch the exception is constructed from five separate
    arguments, the text with its four [%s] still in place and the field name,
    the class list, [str(value)] and the class name next to it.  For
    [String().validate(name, 23)] the text is the bare template and
    [e.message] is empty. *)
Theorem class_mismatch_message_unformatted (r : bool) (name : string) :
  exists e,
    validate {| __class__ := Kind.String; required := r |} name (PyInt 23)
      = Raises e /\
    e = DataValidationException
          [AStr "class mismatch for %s: expected %s, %s has class %s";
           AStr (Keyable_key_to_string name);
           AClasses [py_str];
           AStr "23";
           AStr "int"] /\
    exn_text e = Some "class mismatch for %s: expected %s, %s has class %s" /\
    exn_message e = Some (AStr "").
Proof. eexists. repeat split. Qed.

(** The text never depends on the call: whatever the leaf, the name and the
    value, a class mismatch that raises [DataValidationException] carries the
    same template. *)
Lemma class_mismatch_text_constant (self : leaf) (name : string)
    (value : pyvalue) (args : list exn_arg) :
  accepted (__class__ self) value = false ->
  validate self name value = Raises (DataValidationException args) ->
  exn_text (DataValidationException args) = Some class_mismatch_text /\
  exn_message (DataValidationException args) = Some (AStr "").
Proof.
  intros Hacc.
  destruct (EXPECTED_CLASS_defined (__class__ self)) as [classes Hcl].
  rewrite (validate_class_mismatch _ _ _ _ Hcl Hacc).
  destruct (str value) as [s | e] eqn:Hs; unfold bind; intros H; inversion H; auto.
  subst e. apply str_raises in Hs as [Hs _]. discriminate Hs.
Qed.

(** C10: membership in [EXPECTED_CLASS] is identity of classes, not
    [issubclass], although [bool] is a subclass of [int].  Every
    integer-family leaf raises [DataValidationException] on a [bool]; the
    [Boolean] leaf raises on every value that is not a [bool], with
    [DataValidationException] on every [int], 0 and 1 included. *)
Theorem class_identity_not_subtype :
  issubclass py_bool py_int = true /\
  (forall (self : leaf) (name : string) (b : bool),
      In (__class__ self) integer_family ->
      exists classes,
        EXPECTED_CLASS (__class__ self) = Some classes /\
        validate self name (PyBool b) =
          Raises (DataValidationException
                    [AStr class_mismatch_text;
                     AStr (Keyable_key_to_string name);
                     AClasses classes;
                     AStr (if b then "True" else "False");
                     AStr "bool"])) /\
  (forall (r : bool) (name : string) (value : pyvalue),
      type value <> py_bool ->
      exists e,
        validate {| __class__ := Kind.Boolean; required := r |} name value
          = Raises e) /\
  (forall (r : bool) (name : string) (z : Z),
      validate {| __class__ := Kind.Boolean; required := r |} name (PyInt z) =
        Raises (DataValidationException
                  [AStr class_mismatch_text;
                   AStr (Keyable_key_to_string name);
                   AClasses [py_bool];
                   AStr (pretty z);
                   AStr "int"])).
Proof.
  split; [reflexivity |]. split; [| split].
  - intros [k r] name b Hfam. simpl in Hfam.
    destruct Hfam as [<- | [<- | [<- | [<- | []]]]]; destruct b;
      eexists; split; reflexivity.
  - intros r name value Hty.
    assert (Hacc : accepted Kind.Boolean value = false)
      by (destruct value; try reflexivity; now destruct Hty).
    destruct (class_mismatch_outcome
                {| __class__ := Kind.Boolean; required := r |} name value Hacc)
      as [[args H] | [H _]]; eauto.
  - reflexivity.
Qed.

(** ** The BigQuery export *)

Lemma BQ_TYPE_defined (k : Kind.t) : exists bq_type, BQ_TYPE k = Some bq_type.
Proof. destruct k; eexists; reflexivity. Qed.

Lemma to_bigquery_returns (self : leaf) (name bq_type : string) :
  BQ_TYPE (__class__ self) = Some bq_type ->
  to_bigquery self name =
    Returns {[ "name" := Keyable_key_to_bq name;
               "type" := bq_type;
               "mode" := if required self then "REQUIRED" else "NULLABLE" ]}.
Proof. unfold to_bigquery. now intros ->. Qed.

Lemma schema_fragment_shape (n t m : string) :
  let d : gmap string string := {[ "name" := n; "type" := t; "mode" := m ]} in
  dom d = ({[ "name"; "type"; "mode" ]} : gset string) /\
  d !! "name" = Some n /\ d !! "type" = Some t /\ d !! "mode" = Some m.
Proof.
  cbv zeta. split; [| split; [| split]].
  - rewrite !dom_insert_L, dom_singleton_L. set_solver.
  - apply lookup_insert_eq.
  - rewrite lookup_insert_ne by discriminate. apply lookup_insert_eq.
  - rewrite !lookup_insert_ne by discriminate. apply lookup_singleton_eq.
Qed.

(** C5: for every leaf kind, field name and [required] flag, [to_bigquery]
    returns a mapping with exactly the keys [name], [type] and [mode]: the
    formatted field name, the leaf's [BQ_TYPE], and ["REQUIRED"] when
    [required] is set, ["NULLABLE"] otherwise.  A required [Integer] named
    ["age"] gives [{name: key_to_bq("age"), type: "INTEGER", mode:
    "REQUIRED"}]. *)
Theorem to_bigquery_schema :
  (forall (self : leaf) (name : string),
      exists (bq_type : string) (d : gmap string string),
        BQ_TYPE (__class__ self) = Some bq_type /\
        to_bigquery self name = Returns d /\
        dom d = ({[ "name"; "type"; "mode" ]} : gset string) /\
        d !! "name" = Some (Keyable_key_to_bq name) /\
        d !! "type" = Some bq_type /\
        d !! "mode" = Some (if required self then "REQUIRED" else "NULLABLE")) /\
  to_bigquery (new Kind.Integer (Some true)) "age" =
    Returns {[ "name" := Keyable_key_to_bq "age";
               "type" := "INTEGER";
               "mode" := "REQUIRED" ]} /\
  to_bigquery (new Kind.Integer None) "age" =
    Returns {[ "name" := Keyable_key_to_bq "age";
               "type" := "INTEGER";
               "mode" := "NULLABLE" ]}.
Proof.
  split; [| split; reflexivity].
  intros self name.
  destruct (BQ_TYPE_defined (__class__ self)) as [bq_type Hty].
  exists bq_type. eexists. split; [exact Hty |].
  split; [apply (to_bigquery_returns _ _ _ Hty) |].
  apply schema_fragment_shape.
Qed.

(** C9: [Long] belongs to the integer family and overrides [BQ_TYPE]: its
    schema fragment has type ["DOUBLE"] for every name and flag, where
    [Integer], [Byte] and [Short] have ["INTEGER"]. *)
Theorem Long_bigquery_type_is_DOUBLE (r : bool) (name : string) :
  In Kind.Long integer_family /\
  (exists d : gmap string string,
      to_bigquery {| __class__ := Kind.Long; required := r |} name = Returns d /\
      d !! "type" = Some "DOUBLE") /\
  Forall (fun k =>
            exists d : gmap string string,
              to_bigquery {| __class__ := k; required := r |} name = Returns d /\
              d !! "type" = Some "INTEGER")
         [Kind.Integer; Kind.Byte; Kind.Short].
Proof.
  split; [simpl; auto 6 |].
  split; [| repeat constructor];
    (eexists; split;
     [ apply to_bigquery_returns; reflexivity
     | apply (schema_fragment_shape (Keyable_key_to_bq name)) ]).
Qed.


(** ** The index mode *)

(** C7, as the code has it: an index mode is bound only in the bodies of
    [AnalyzedString], [String], [Binary] and [IndexedBinary], each time to
    one of the three valid modes; the nine other kinds bind none, inherit
    none, and nothing supplies a default, so reading it on them fails. *)
Theorem index_mode_only_where_declared (k : Kind.t) :
  match ES_INDEX_TYPE k with
  | Some mode =>
      In mode VALID_ES_INDEX_TYPES /\
      In k [Kind.AnalyzedString; Kind.String; Kind.Binary; Kind.IndexedBinary]
  | None =>
      In k [Kind.IPv4Address; Kind.Integer; Kind.Byte; Kind.Short; Kind.Long;
            Kind.Float; Kind.Double; Kind.Boolean; Kind.DateTime]
  end /\
  ES_INDEX_TYPE Kind.AnalyzedString = Some "analyzed" /\
  ES_INDEX_TYPE Kind.String = Some "not_analyzed" /\
  ES_INDEX_TYPE Kind.Binary = Some "no" /\
  ES_INDEX_TYPE Kind.IndexedBinary = Some "not_analyzed".
Proof.
  split; [| repeat split].
  destruct k; simpl; auto 15.
Qed.

Lemma VALID_LEAVES_complete (k : Kind.t) : In k VALID_LEAVES.
Proof. destruct k; simpl; auto 15. Qed.

(** ** What [validate] can and cannot do *)

Lemma call__validate_outcome (h : hook) (self : leaf) (name : string)
    (value : pyvalue) :
  accepted (__class__ self) value = true ->
  getattr own__validate (__class__ self) = Some h ->
  call__validate h self name value = Returns tt \/
  exists t a rest,
    call__validate h self name value =
      Raises (DataValidationException (AStr t :: AStr name :: a :: rest)).
Proof.
  destruct self as [k r]. unfold __class__.
  destruct k, value; try discriminate; intros _ [= <-];
    unfold call__validate, IPv4Address__validate, Binary__validate,
      Integer__validate, DateTime__validate, _is_ipv4_addr, _is_base64, bind,
      BITS, getattr, own_IP_REGEX, own_B64_REGEX, own_BITS, base, __class__,
      str;
    repeat match goal with
           | |- context [if ?b then _ else _] => destruct b
           end; eauto.
Qed.

(** X1: whatever the leaf, the name and the value, [validate] returns, or
    raises [DataValidationException], or raises [UnicodeEncodeError] (only on
    a [unicode] of a class that is not accepted), or raises [NameError]
    (only when the module-level [key_to_string] is unbound and the class check
    has passed).  It never fails on a missing class attribute. *)
Theorem validate_outcomes (self : leaf) (name : string) (value : pyvalue) :
  (validate self name value = Returns tt /\
   accepted (__class__ self) value = true) \/
  (exists args,
      validate self name value = Raises (DataValidationException args)) \/
  (validate self name value = Raises UnicodeEncodeError /\
   type value = py_unicode /\ accepted (__class__ self) value = false) \/
  (validate self name value = Raises (NameError "key_to_string") /\
   key_to_string = None /\ accepted (__class__ self) value = true).
Proof.
  destruct (accepted (__class__ self) value) eqn:Hacc.
  - rewrite (validate_class_match _ _ _ Hacc).
    destruct (getattr own__validate (__class__ self)) as [h|] eqn:Hh;
      [| left; auto].
    destruct key_to_string as [f|]; [| right; right; right; auto].
    destruct (call__validate_outcome h self (f name) value Hacc Hh)
      as [-> | (t & a & rest & ->)]; [left; auto | right; left; eauto].
  - destruct (class_mismatch_outcome self name value Hacc)
      as [H | [H Hty]]; [right; left; exact H | right; right; left; auto].
Qed.

(** X2: every [DataValidationException] that [validate] raises was built
    from at least three constructor arguments: a text, then the field name
    as formatted by [Keyable] (on a class mismatch) or by the module-level
    [key_to_string] (in a hook), then the details.  Its [message] attribute
    is therefore the empty string. *)
Theorem raised_exception_shape (self : leaf) (name : string)
    (value : pyvalue) (args : list exn_arg) :
  validate self name value = Raises (DataValidationException args) ->
  (exists text formatted detail rest,
      args = AStr text :: AStr formatted :: detail :: rest /\
      (formatted = Keyable_key_to_string name \/
       exists f, key_to_string = Some f /\ formatted = f name)) /\
  exn_message (DataValidationException args) = Some (AStr "").
Proof.
  destruct (accepted (__class__ self) value) eqn:Hacc.
  - rewrite (validate_class_match _ _ _ Hacc).
    destruct (getattr own__validate (__class__ self)) as [h|] eqn:Hh;
      [| discriminate].
    destruct key_to_string as [f|]; [| discriminate].
    destruct (call__validate_outcome h self (f name) value Hacc Hh)
      as [-> | (t & a & rest & ->)]; [discriminate |].
    intros [= <-]. split; [| reflexivity].
    exists t, (f name), a, rest. split; [reflexivity | right; eauto].
  - destruct (EXPECTED_CLASS_defined (__class__ self)) as [classes Hcl].
    rewrite (validate_class_mismatch _ _ _ _ Hcl Hacc).
    destruct (str value) as [s | e] eqn:Hs; unfold bind.
    + intros [= <-]. split; [| reflexivity].
      eexists _, _, _, _. split; [reflexivity | left; reflexivity].
    + intros [= ->]. apply str_raises in Hs as [Hs _]. discriminate Hs.
Qed.

(** X3: the [required] flag plays no part in validation. *)
Theorem validate_ignores_required (k : Kind.t) (r1 r2 : bool)
    (name : string) (value : pyvalue) :
  validate {| __class__ := k; required := r1 |} name value =
  validate {| __class__ := k; required := r2 |} name value.
Proof.
  unfold validate. destruct key_to_string as [f|];
    destruct k, value; reflexivity.
Qed.


(** X4: on a kind without a hook ([AnalyzedString], [String], [Float],
    [Double], [Boolean]) the class of the value decides alone: [validate]
    returns exactly on the accepted classes, whatever the content. *)
Theorem hookless_validate_is_class_check (self : leaf) (name : string)
    (value : pyvalue) :
  In (__class__ self) hookless ->
  (validate self name value = Returns tt <->
   accepted (__class__ self) value = true).
Proof.
  intros Hk.
  assert (Hh : getattr own__validate (__class__ self) = None).
  { destruct self as [k r]. simpl in Hk.
    destruct Hk as [<- | [<- | [<- | [<- | [<- | []]]]]]; reflexivity. }
  split.
  - intros Hret. destruct (accepted (__class__ self) value) eqn:Hacc; [reflexivity |].
    destruct (class_mismatch_outcome self name value Hacc) as [[args H] | [H _]];
      rewrite H in Hret; discriminate.
  - intros Hacc. now rewrite (validate_class_match _ _ _ Hacc), Hh.
Qed.

(** X5: a class that overrides nothing [validate] reads behaves as its base:
    [Double] validates as [Float] and [IndexedBinary] as [Binary]; and
    [AnalyzedString], which differs from [String] in the index mode only,
    validates as [String]. *)
Theorem validate_inherited (r : bool) (name : string) (value : pyvalue) :
  validate {| __class__ := Kind.Double; required := r |} name value =
    validate {| __class__ := Kind.Float; required := r |} name value /\
  validate {| __class__ := Kind.IndexedBinary; required := r |} name value =
    validate {| __class__ := Kind.Binary; required := r |} name value /\
  validate {| __class__ := Kind.AnalyzedString; required := r |} name value =
    validate {| __class__ := Kind.String; required := r |} name value.
Proof.
  unfold validate. destruct key_to_string as [f|];
    destruct value; repeat split.
Qed.

(** X6: [Integer], [Byte] and [Short] refuse every [long], whatever its
    magnitude, with the class-mismatch exception; [Long] treats an [int] and
    a [long] of the same magnitude alike. *)
Theorem long_values (r : bool) (name : string) (z : Z) :
  Forall (fun k =>
            validate {| __class__ := k; required := r |} name (PyLong z) =
              Raises (DataValidationException
                        [AStr class_mismatch_text;
                         AStr (Keyable_key_to_string name);
                         AClasses [py_int];
                         AStr (pretty z);
                         AStr "long"]))
         [Kind.Integer; Kind.Byte; Kind.Short] /\
  validate {| __class__ := Kind.Long; required := r |} name (PyLong z) =
    validate {| __class__ := Kind.Long; required := r |} name (PyInt z).
Proof.
  split; [repeat constructor |].
  unfold validate. destruct key_to_string; reflexivity.
Qed.

(** ** More on the BigQuery export *)

(** X7: the schema fragment gives back what went into it: two equal
    fragments come from the same [required] flag, the same [BQ_TYPE] and the
    same formatted name. *)
Theorem to_bigquery_reads_back (self1 self2 : leaf) (name1 name2 : string) :
  to_bigquery self1 name1 = to_bigquery self2 name2 ->
  required self1 = required self2 /\
  BQ_TYPE (__class__ self1) = BQ_TYPE (__class__ self2) /\
  Keyable_key_to_bq name1 = Keyable_key_to_bq name2.
Proof.
  destruct (BQ_TYPE_defined (__class__ self1)) as [t1 H1].
  destruct (BQ_TYPE_defined (__class__ self2)) as [t2 H2].
  rewrite (to_bigquery_returns _ _ _ H1), (to_bigquery_returns _ _ _ H2).
  pose proof (schema_fragment_shape (Keyable_key_to_bq name1) t1
                (if required self1 then "REQUIRED" else "NULLABLE"))
    as (_ & Hn1 & Ht1 & Hm1).
  pose proof (schema_fragment_shape (Keyable_key_to_bq name2) t2
                (if required self2 then "REQUIRED" else "NULLABLE"))
    as (_ & Hn2 & Ht2 & Hm2).
  cbv zeta in *.
  set (d1 := {[ "name" := _; "type" := t1; "mode" := _ ]}) in *.
  set (d2 := {[ "name" := _; "type" := t2; "mode" := _ ]}) in *.
  intros H. assert (Heq : d1 = d2) by congruence. clear H.
  rewrite Heq in Hn1, Ht1, Hm1.
  rewrite Hn2 in Hn1. rewrite Ht2 in Ht1. rewrite Hm2 in Hm1.
  injection Hn1 as Hn. injection Ht1 as Ht. injection Hm1 as Hm.
  split; [| split; [congruence | congruence]].
  destruct (required self1), (required self2); (reflexivity || discriminate Hm).
Qed.

(** ** The display methods *)

Lemma percent_format_pair (a b : string) :
  percent_format "%s: %s" [a; b] = Some (a +:+ ": " +:+ b).
Proof.
  cbn [percent_format Ascii.eqb Bool.eqb andb option_map].
  now rewrite string_app_nil_r.
Qed.

Lemma to_string_returns (self : leaf) (name : string) :
  to_string self name =
    Some (Keyable_key_to_string name +:+ ": " +:+
          lower (__name__ (__class__ self))).
Proof. apply percent_format_pair. Qed.

Lemma lower_name_inj (k k' : Kind.t) :
  lower (__name__ k) = lower (__name__ k') -> k = k'.
Proof. destruct k, k'; intros H; (reflexivity || (vm_compute in H; discriminate H)). Qed.

(** X8: [to_string] always produces a text, the formatted name followed by
    a colon, a space and the class name in lower case, and for one name the
    text tells the thirteen kinds apart. *)
Theorem to_string_tells_kinds_apart (self self' : leaf) (name : string) :
  to_string self name = to_string self' name ->
  __class__ self = __class__ self' /\
  to_string self name =
    Some (Keyable_key_to_string name +:+ ": " +:+
          lower (__name__ (__class__ self))).
Proof.
  rewrite !to_string_returns. intros [= H].
  apply (inj (String.append _)) in H.
  apply (inj (String.append _)) in H.
  split; [now apply lower_name_inj | reflexivity].
Qed.

Lemma str_repeat_length (s : string) (n : nat) :
  String.length (str_repeat s n) = (n * String.length s)%nat.
Proof.
  induction n as [|n IH]; simpl; [reflexivity |].
  now rewrite string_app_length, IH.
Qed.

(** X9: [print_indent_string] writes one line after what was already
    written: [indent] tabs, none when [indent] is zero or negative, then the
    formatted name and a line end; the leaf plays no part in it. *)
Theorem print_indent_string_line (self : leaf) (name : string) (indent : Z)
    (stdout : string) :
  print_indent_string self name indent stdout =
    stdout +:+ str_repeat tab (Z.to_nat indent) +:+
    Keyable_key_to_string name +:+ newline /\
  String.length (print_indent_string self name indent stdout) =
    (String.length stdout + Z.to_nat indent +
     String.length (Keyable_key_to_string name) + 1)%nat.
Proof.
  assert (Heq : print_indent_string self name indent stdout =
                stdout +:+ str_repeat tab (Z.to_nat indent) +:+
                Keyable_key_to_string name +:+ newline).
  { unfold print_indent_string. cbv zeta.
    destruct (Z.eqb_spec indent 0) as [-> | Hne]; simpl negb; cbv iota.
    - reflexivity.
    - unfold str_mul. now rewrite string_app_assoc. }
  split; [exact Heq |].
  rewrite Heq, !string_app_length, str_repeat_length. simpl. lia.
Qed.

(** ** The unit tests without the module-level name *)

Lemma test_valid_from_stops (k : Kind.t) (rest : list Kind.t) (v : pyvalue)
    (e : exn) :
  VALID k = Some v ->
  validate (new k None) (__name__ k) v = Raises e ->
  test_valid_from (k :: rest) = Raises e.
Proof. intros Hv He. simpl. now rewrite Hv, He. Qed.

Lemma test_invalid_from_stops (k : Kind.t) (rest : list Kind.t) (v : pyvalue)
    (n : string) :
  INVALID k = Some v ->
  validate (new k None) (__name__ k) v = Raises (NameError n) ->
  test_invalid_from (k :: rest) = Raises (NameError n).
Proof. intros Hv He. simpl. now rewrite Hv, He. Qed.

(** X10: when [keys] does not bind a module-level [key_to_string], both unit
    tests stop at their first leaf with [NameError]: the examples of
    [DateTime] pass the class check and the hook is never entered. *)
Theorem unit_tests_need_key_to_string :
  key_to_string = None ->
  test_valid = Raises (NameError "key_to_string") /\
  test_invalid = Raises (NameError "key_to_string").
Proof.
  intros Hnone. split.
  - apply (test_valid_from_stops _ _ (PyStr "Wed Jul  8 08:52:01 EDT 2015"));
      [reflexivity |].
    now apply (validate_unbound_key_to_string _ _ _ DateTime__validate_hook).
  - apply (test_invalid_from_stops _ _ (PyStr "Wed DNE  35 08:52:01 EDT 2015"));
      [reflexivity |].
    now apply (validate_unbound_key_to_string _ _ _ DateTime__validate_hook).
Qed.

(** ** With the module-level [key_to_string] bound

    The hooks receive the name as formatted by the module-level
    [key_to_string]; what follows holds when [keys] binds it. *)

Section Bound.

Variable fmt : string -> string.
Hypothesis key_to_string_bound : key_to_string = Some fmt.

Lemma validate_enters_hook (self : leaf) (name : string) (value : pyvalue)
    (h : hook) :
  accepted (__class__ self) value = true ->
  getattr own__validate (__class__ self) = Some h ->
  validate self name value = call__validate h self (fmt name) value.
Proof.
  intros Hacc Hh.
  now rewrite (validate_class_match _ _ _ Hacc), Hh, key_to_string_bound.
Qed.

(** ** The integer family *)

Lemma Integer__validate_bounds (self : leaf) (name : string) (z bits : Z) :
  BITS (__class__ self) = Some bits ->
  0 <= bits ->
  bounds_outcome bits z name (Integer__validate self name z).
Proof.
  intros Hbits Hnn. unfold Integer__validate, bounds_outcome.
  rewrite Hbits. cbv zeta.
  assert (Hpow : 0 < 2 ^ bits) by (apply Z.pow_pos_nonneg; lia).
  rewrite Z.gtb_ltb.
  destruct (Z.ltb_spec (2 ^ bits - 1) z) as [Hgt | Hle].
  - split; [split; [discriminate | lia] |]. split; [reflexivity | lia].
  - destruct (Z.ltb_spec z (- 2 ^ bits + 1)) as [Hlt | Hge].
    + split; [split; [discriminate | lia] |]. split; [lia | reflexivity].
    + split; [split; [lia | reflexivity] |]. split; lia.
Qed.

(** C1: on an integer-family leaf ([Integer] at 32 bits, [Byte] at 8,
    [Short] at 16, [Long] at 64) and a value of an accepted class, [validate]
    returns exactly when [-2^BITS + 1 <= value <= 2^BITS - 1]; above the upper
    bound and below the lower bound it raises [DataValidationException]. *)
Theorem Integer_family_validate_bounds (self : leaf) (name : string)
    (value : pyvalue) :
  In (__class__ self) integer_family ->
  accepted (__class__ self) value = true ->
  exists bits z,
    BITS (__class__ self) = Some bits /\
    bits = match __class__ self with
           | Kind.Byte => 8
           | Kind.Short => 16
           | Kind.Long => 64
           | _ => 32
           end /\
    int_value value = Some z /\
    bounds_outcome bits z (fmt name) (validate self name value).
Proof.
  intros Hfam Hacc.
  assert (Hh : getattr own__validate (__class__ self)
               = Some Integer__validate_hook).
  { destruct self as [k r]. simpl in Hfam.
    destruct Hfam as [<- | [<- | [<- | [<- | []]]]]; reflexivity. }
  rewrite (validate_enters_hook _ _ _ _ Hacc Hh).
  destruct self as [k r]. unfold __class__ in *. clear Hh.
  assert (Hw : forall bits z,
             BITS k = Some bits -> 0 <= bits -> int_value value = Some z ->
             bounds_outcome bits z (fmt name)
               (call__validate Integer__validate_hook
                  {| __class__ := k; required := r |} (fmt name) value)).
  { intros bits z Hb Hnn Hz.
    destruct value; try discriminate Hz; injection Hz as ->;
      now apply Integer__validate_bounds. }
  simpl in Hfam.
  destruct Hfam as [<- | [<- | [<- | [<- | []]]]];
    destruct value as [s | u | z | z | m x | b |]; try discriminate Hacc;
    eexists _, z; (split; [reflexivity |]); (split; [reflexivity |]);
    (split; [reflexivity |]); apply Hw; (reflexivity || lia).
Qed.


(** The bounds of [Byte] are 255 on both sides. *)
Example Byte_bounds (r : bool) (name : string) :
  let self := {| __class__ := Kind.Byte; required := r |} in
  validate self name (PyInt 255) = Returns tt /\
  validate self name (PyInt (-255)) = Returns tt /\
  validate self name (PyInt 261) =
    Raises (DataValidationException
              [AStr "%s: %s is larger than max (%s)";
               AStr (fmt name); AStr "261"; AStr "255"]) /\
  validate self name (PyInt (-256)) =
    Raises (DataValidationException
              [AStr "%s: %s is smaller than min (%s)";
               AStr (fmt name); AStr "-256"; AStr "-255"]).
Proof. unfold validate. rewrite key_to_string_bound. repeat split. Qed.

(** ** The pattern leaves *)

Lemma IPv4Address_validate_unfold (r : bool) (name s : string) :
  validate {| __class__ := Kind.IPv4Address; required := r |} name (PyStr s) =
    if negb (re_match IP_REGEX s)
    then Raises (DataValidationException
                   [AStr "%s: the value %s is not a valid IPv4 address";
                    AStr (fmt name); AStr s])
    else Returns tt.
Proof. unfold validate. rewrite key_to_string_bound. reflexivity. Qed.

(** C3: on the [IPv4Address] leaf, [validate] accepts exactly the strings
    that start with a dotted quad (four runs of one to three digits separated
    by dots), whatever follows and whatever the octets are worth:
    ["999.999.999.999"] passes; every other string, such as ["my string"],
    raises [DataValidationException]. *)
Theorem IPv4Address_validate_dotted_quad_prefix (r : bool) (name s : string) :
  let self := {| __class__ := Kind.IPv4Address; required := r |} in
  (validate self name (PyStr s) = Returns tt <-> dotted_quad_prefix s) /\
  (~ dotted_quad_prefix s ->
   validate self name (PyStr s) =
     Raises (DataValidationException
               [AStr "%s: the value %s is not a valid IPv4 address";
                AStr (fmt name); AStr s])) /\
  validate self name (PyStr "999.999.999.999") = Returns tt /\
  validate self name (PyStr "my string") =
    Raises (DataValidationException
              [AStr "%s: the value %s is not a valid IPv4 address";
               AStr (fmt name); AStr "my string"]).
Proof.
  cbv zeta. rewrite !IPv4Address_validate_unfold.
  pose proof (IP_REGEX_match_iff s) as Hiff.
  destruct (re_match IP_REGEX s); simpl negb; cbv iota.
  - split; [| split; [| split; reflexivity]].
    + split; [intros _; now apply Hiff | reflexivity].
    + intros Hn. destruct Hn. now apply Hiff.
  - split; [| split; [| split; reflexivity]].
    + split; [discriminate | intros Hp; apply Hiff in Hp; discriminate].
    + reflexivity.
Qed.

Lemma Binary_validate_unfold (self : leaf) (name s : string) :
  __class__ self = Kind.Binary \/ __class__ self = Kind.IndexedBinary ->
  validate self name (PyStr s) =
    if negb (re_match B64_REGEX s)
    then Raises (DataValidationException
                   [AStr "%s: the value %s is not valid Base64";
                    AStr (fmt name); AStr s])
    else Returns tt.
Proof.
  unfold validate. rewrite key_to_string_bound.
  destruct self as [k r]. simpl. intros [-> | ->]; reflexivity.
Qed.

(** C4: on the [Binary] and [IndexedBinary] leaves, [validate] accepts
    exactly the strings whose first character is one of [A-Fa-f0-9],
    whatever follows it (["03F87824"], and also ["0zz"]); a string that does
    not start with a hex character, such as ["normal"], raises
    [DataValidationException]. *)
Theorem Binary_validate_hex_prefix (self : leaf) (name s : string) :
  __class__ self = Kind.Binary \/ __class__ self = Kind.IndexedBinary ->
  (validate self name (PyStr s) = Returns tt <-> hex_prefix s) /\
  (~ hex_prefix s ->
   validate self name (PyStr s) =
     Raises (DataValidationException
               [AStr "%s: the value %s is not valid Base64";
                AStr (fmt name); AStr s])) /\
  validate self name (PyStr "03F87824") = Returns tt /\
  validate self name (PyStr "0zz") = Returns tt /\
  validate self name (PyStr "normal") =
    Raises (DataValidationException
              [AStr "%s: the value %s is not valid Base64";
               AStr (fmt name); AStr "normal"]).
Proof.
  intros Hk. rewrite !(Binary_validate_unfold self _ _ Hk).
  pose proof (B64_REGEX_match_iff s) as Hiff.
  destruct (re_match B64_REGEX s); simpl negb; cbv iota.
  - split; [| split; [| repeat split]].
    + split; [intros _; now apply Hiff | reflexivity].
    + intros Hn. destruct Hn. now apply Hiff.
  - split; [| split; [| repeat split]].
    + split; [discriminate | intros Hp; apply Hiff in Hp; discriminate].
    + reflexivity.
Qed.


(** ** The canonical examples *)

Section Canonical.

(** An [int] holds at least 32 bits, and the date parser is taken to read the
    canonical timestamp and to give up on the malformed one. *)
Hypothesis maxint_32 : 2 ^ 31 - 1 <= sys_maxint.
Hypothesis parses_VALID :
  dateutil_parser_parse (PyStr "Wed Jul  8 08:52:01 EDT 2015") = true.
Hypothesis rejects_INVALID :
  dateutil_parser_parse (PyStr "Wed DNE  35 08:52:01 EDT 2015") = false.

Lemma int_literal_small (z : Z) : z <= 2 ^ 31 - 1 -> int_literal z = PyInt z.
Proof.
  intros Hz. unfold int_literal.
  destruct (Z.leb_spec z sys_maxint); [reflexivity | lia].
Qed.

Lemma int_literal_cases (z : Z) : int_literal z = PyInt z \/ int_literal z = PyLong z.
Proof. unfold int_literal. destruct (z <=? sys_maxint); auto. Qed.

Lemma VALID_passes (k : Kind.t) (r : bool) (name : string) :
  exists v,
    VALID k = Some v /\
    validate {| __class__ := k; required := r |} name v = Returns tt.
Proof.
  unfold validate. rewrite key_to_string_bound.
  destruct k; eexists; (split; [reflexivity |]);
    rewrite ?int_literal_small by (vm_compute; discriminate);
    try reflexivity.
  unfold call__validate, DateTime__validate. simpl.
  now rewrite parses_VALID.
Qed.

Lemma INVALID_raises (k : Kind.t) (r : bool) (name : string) :
  exists w args,
    INVALID k = Some w /\
    validate {| __class__ := k; required := r |} name w =
      Raises (DataValidationException args).
Proof.
  unfold validate. rewrite key_to_string_bound.
  destruct k;
    try (eexists _, _; (split; [reflexivity |]);
         rewrite ?int_literal_small by (vm_compute; discriminate);
         reflexivity).
  - destruct (int_literal_cases 8589934592) as [H | H];
      eexists _, _; (split; [reflexivity |]); rewrite H; reflexivity.
  - eexists _, _. split; [reflexivity |].
    unfold call__validate, DateTime__validate. simpl.
    rewrite rejects_INVALID. reflexivity.
Qed.

(** C6: for every leaf kind of the catalog, [validate] returns (nothing) on
    the kind's [VALID] example and raises [DataValidationException] on its
    [INVALID] example. *)
Theorem canonical_examples (k : Kind.t) (r : bool) (name : string) :
  In k VALID_LEAVES ->
  (exists v,
      VALID k = Some v /\
      validate {| __class__ := k; required := r |} name v = Returns tt) /\
  (exists w args,
      INVALID k = Some w /\
      validate {| __class__ := k; required := r |} name w =
        Raises (DataValidationException args)).
Proof. intros _. split; [apply VALID_passes | apply INVALID_raises]. Qed.

Lemma test_valid_from_passes (leaves : list Kind.t) :
  test_valid_from leaves = Returns tt.
Proof.
  induction leaves as [|k rest IH]; simpl; [reflexivity |].
  destruct (VALID_passes k false (__name__ k)) as (v & -> & Hv).
  unfold new. rewrite Hv. exact IH.
Qed.

Lemma test_invalid_from_passes (leaves : list Kind.t) :
  test_invalid_from leaves = Returns tt.
Proof.
  induction leaves as [|k rest IH]; simpl; [reflexivity |].
  destruct (INVALID_raises k false (__name__ k)) as (w & args & -> & Hw).
  unfold new. rewrite Hw. exact IH.
Qed.

(** X17: with the module-level [key_to_string] bound, an [int] of at least
    32 bits and a date parser that reads the canonical timestamp and gives
    up on the malformed one, both unit tests of the module run through all
    thirteen leaves and pass. *)
Lemma unit_tests_pass : test_valid = Returns tt /\ test_invalid = Returns tt.
Proof.
  split; [apply test_valid_from_passes | apply test_invalid_from_passes].
Qed.

End Canonical.

(** ** The integer ranges against each other *)

Lemma Integer_family_returns_iff (k : Kind.t) (r : bool) (name : string)
    (z bits : Z) :
  In k integer_family ->
  BITS k = Some bits ->
  0 <= bits ->
  (validate {| __class__ := k; required := r |} name (PyInt z) = Returns tt
   <-> - 2 ^ bits + 1 <= z <= 2 ^ bits - 1).
Proof.
  intros Hk Hbits Hnn.
  assert (Hacc : accepted k (PyInt z) = true /\
                 getattr own__validate k = Some Integer__validate_hook).
  { simpl in Hk. destruct Hk as [<- | [<- | [<- | [<- | []]]]]; split; reflexivity. }
  destruct Hacc as [Hacc Hh].
  rewrite (validate_enters_hook {| __class__ := k; required := r |}
             name (PyInt z) _ Hacc Hh).
  apply (Integer__validate_bounds {| __class__ := k; required := r |}
           (fmt name) z bits Hbits Hnn).
Qed.

(** X11: the ranges are nested: an [int] that [Byte] accepts is accepted by
    [Short], one that [Short] accepts by [Integer], and one that [Integer]
    accepts by [Long]. *)
Theorem integer_ranges_nested (r : bool) (name : string) (z : Z) :
  (validate {| __class__ := Kind.Byte; required := r |} name (PyInt z)
     = Returns tt ->
   validate {| __class__ := Kind.Short; required := r |} name (PyInt z)
     = Returns tt) /\
  (validate {| __class__ := Kind.Short; required := r |} name (PyInt z)
     = Returns tt ->
   validate {| __class__ := Kind.Integer; required := r |} name (PyInt z)
     = Returns tt) /\
  (validate {| __class__ := Kind.Integer; required := r |} name (PyInt z)
     = Returns tt ->
   validate {| __class__ := Kind.Long; required := r |} name (PyInt z)
     = Returns tt).
Proof.
  rewrite (Integer_family_returns_iff Kind.Byte r name z 8)
    by (simpl; auto 6 || reflexivity || lia).
  rewrite (Integer_family_returns_iff Kind.Short r name z 16)
    by (simpl; auto 6 || reflexivity || lia).
  rewrite (Integer_family_returns_iff Kind.Integer r name z 32)
    by (simpl; auto 6 || reflexivity || lia).
  rewrite (Integer_family_returns_iff Kind.Long r name z 64)
    by (simpl; auto 6 || reflexivity || lia).
  change (2 ^ 8) with 256. change (2 ^ 16) with 65536.
  change (2 ^ 32) with 4294967296. change (2 ^ 64) with 18446744073709551616.
  lia.
Qed.


(** ** The reach of the two patterns *)

Lemma IPv4Address_returns_iff (r : bool) (name s : string) :
  validate {| __class__ := Kind.IPv4Address; required := r |} name (PyStr s)
    = Returns tt <-> dotted_quad_prefix s.
Proof.
  rewrite IPv4Address_validate_unfold, <- IP_REGEX_match_iff.
  destruct (re_match IP_REGEX s); simpl; split; (reflexivity || discriminate).
Qed.

Lemma Binary_returns_iff (self : leaf) (name s : string) :
  __class__ self = Kind.Binary \/ __class__ self = Kind.IndexedBinary ->
  validate self name (PyStr s) = Returns tt <-> hex_prefix s.
Proof.
  intros Hk. rewrite (Binary_validate_unfold self _ _ Hk), <- B64_REGEX_match_iff.
  destruct (re_match B64_REGEX s); simpl; split; (reflexivity || discriminate).
Qed.

Lemma dotted_quad_prefix_app (s t : string) :
  dotted_quad_prefix s -> dotted_quad_prefix (s +:+ t).
Proof.
  intros (a & b & c & d & rest & Ha & Hb & Hc & Hd & ->).
  exists a, b, c, d, (rest +:+ t). repeat (split; [assumption |]).
  now rewrite !string_app_assoc.
Qed.

Lemma hex_prefix_app (s t : string) : hex_prefix s -> hex_prefix (s +:+ t).
Proof.
  intros (c & rest & -> & Hc). exists c, (rest +:+ t). split; [reflexivity | assumption].
Qed.

(** X13: on the pattern leaves ([IPv4Address], [Binary], [IndexedBinary])
    an accepted string stays accepted whatever is appended to it, under any
    field name. *)
Theorem pattern_leaves_accept_extensions (self : leaf) (name name' s t : string) :
  In (__class__ self) [Kind.IPv4Address; Kind.Binary; Kind.IndexedBinary] ->
  validate self name (PyStr s) = Returns tt ->
  validate self name' (PyStr (s +:+ t)) = Returns tt.
Proof.
  intros Hk.
  destruct self as [k r]. simpl in Hk.
  destruct Hk as [<- | [<- | [<- | []]]].
  - rewrite !IPv4Address_returns_iff. apply dotted_quad_prefix_app.
  - rewrite !Binary_returns_iff by (left; reflexivity). apply hex_prefix_app.
  - rewrite !Binary_returns_iff by (right; reflexivity). apply hex_prefix_app.
Qed.

Lemma digit_runb_spec (d : string) : digit_runb d = true -> digit_run d.
Proof.
  unfold digit_runb, digit_run.
  rewrite !andb_true_iff, !Nat.leb_le. intros [[H1 H2] H3]. auto.
Qed.

Lemma digit_run_pretty (n : N) : (n < 256)%N -> digit_run (pretty n).
Proof.
  intros Hn. apply digit_runb_spec.
  assert (Hall : forallb (fun m => digit_runb (pretty (N.of_nat m)))
                         (seq 0 256) = true) by (vm_compute; reflexivity).
  rewrite forallb_forall in Hall.
  specialize (Hall (N.to_nat n)). rewrite N2Nat.id in Hall.
  apply Hall, in_seq. clear - Hn. lia.
Qed.

(** X14: every address in dotted-decimal form, four octets below 256
    written in decimal and separated by dots, is accepted by [IPv4Address]. *)
Theorem IPv4Address_accepts_dotted_decimal (r : bool) (name : string)
    (a b c d : N) :
  (a < 256)%N -> (b < 256)%N -> (c < 256)%N -> (d < 256)%N ->
  validate {| __class__ := Kind.IPv4Address; required := r |} name
    (PyStr (dotted_decimal a b c d)) = Returns tt.
Proof.
  intros Ha Hb Hc Hd. apply IPv4Address_returns_iff.
  exists (pretty a), (pretty b), (pretty c), (pretty d), "".
  repeat (split; [now apply digit_run_pretty |]).
  unfold dotted_decimal. now rewrite string_app_nil_r.
Qed.

Lemma digit_run_head (d rest : string) :
  digit_run d ->
  exists c tl, d +:+ rest = String c tl /\ is_digit c = true /\
               (1 <= String.length d)%nat.
Proof.
  intros [[Hlo _] Hall]. destruct d as [|c d]; simpl in Hlo; [lia |].
  simpl in Hall. apply andb_true_iff in Hall as [Hc _].
  exists c, (d +:+ rest). rewrite string_app_cons.
  repeat split; [assumption | simpl; lia].
Qed.

(** X15: a string that [IPv4Address] accepts starts with a digit and has at
    least seven characters; the empty string and a string with a leading
    blank or sign are refused. *)
Theorem IPv4Address_accepted_shape (r : bool) (name s : string) :
  validate {| __class__ := Kind.IPv4Address; required := r |} name (PyStr s)
    = Returns tt ->
  (7 <= String.length s)%nat /\
  exists c rest, s = String c rest /\ is_digit c = true.
Proof.
  rewrite IPv4Address_returns_iff.
  intros (a & b & c & d & rest & Ha & Hb & Hc & Hd & ->).
  split.
  - rewrite !string_app_length.
    destruct Ha as [[Ha _] _], Hb as [[Hb _] _], Hc as [[Hc _] _],
      Hd as [[Hd _] _]. simpl. lia.
  - destruct (digit_run_head a ("." +:+ b +:+ "." +:+ c +:+ "." +:+ d +:+ rest) Ha)
      as (x & tl & Heq & Hx & _).
    exists x, tl. split; assumption.
Qed.

(** ** The timestamp leaf *)

Lemma DateTime_accepted (value : pyvalue) :
  accepted Kind.DateTime value = true <->
  type value = py_str \/ type value = py_int.
Proof.
  destruct value; simpl; split; auto;
    (discriminate || intros [H | H]; discriminate H).
Qed.

Lemma DateTime_validate_unfold (r : bool) (name : string) (value : pyvalue) :
  accepted Kind.DateTime value = true ->
  validate {| __class__ := Kind.DateTime; required := r |} name value =
    DateTime__validate {| __class__ := Kind.DateTime; required := r |}
      (fmt name) value.
Proof.
  intros Hacc.
  now rewrite (validate_enters_hook
                 {| __class__ := Kind.DateTime; required := r |} name value
                 DateTime__validate_hook Hacc).
Qed.

(** X16: [DateTime] hands every [str] and every [int] to the date parser and
    nothing else: [validate] returns exactly when the value is of one of the
    two classes and the parser reads it, and an accepted value that the
    parser gives up on raises [DataValidationException]. *)
Theorem DateTime_validate_follows_parser (r : bool) (name : string)
    (value : pyvalue) :
  let self := {| __class__ := Kind.DateTime; required := r |} in
  (validate self name value = Returns tt <->
   (type value = py_str \/ type value = py_int) /\
   dateutil_parser_parse value = true) /\
  ((type value = py_str \/ type value = py_int) ->
   dateutil_parser_parse value = false ->
   exists s,
     str value = Returns s /\
     validate self name value =
       Raises (DataValidationException
                 [AStr "%s: %s is not valid timestamp";
                  AStr (fmt name); AStr s])).
Proof.
  cbv zeta. rewrite <- DateTime_accepted.
  assert (Hstr : accepted Kind.DateTime value = true ->
                 exists s, str value = Returns s).
  { intros Hacc. apply str_returns. intros Hty.
    apply DateTime_accepted in Hacc as [H | H]; rewrite Hty in H; discriminate H. }
  split; [split |].
  - intros Hret.
    destruct (accepted Kind.DateTime value) eqn:Hacc.
    + split; [reflexivity |].
      rewrite (DateTime_validate_unfold r name value Hacc) in Hret.
      unfold DateTime__validate in Hret.
      destruct (dateutil_parser_parse value); [reflexivity |].
      destruct (Hstr eq_refl) as [s Hs]. rewrite Hs in Hret. discriminate Hret.
    + destruct (class_mismatch_outcome
                  {| __class__ := Kind.DateTime; required := r |} name value Hacc)
        as [[args H] | [H _]]; rewrite H in Hret; discriminate Hret.
  - intros [Hacc Hp].
    rewrite (DateTime_validate_unfold r name value Hacc).
    unfold DateTime__validate. now rewrite Hp.
  - intros Hacc Hp. destruct (Hstr Hacc) as [s Hs]. exists s.
    split; [exact Hs |].
    rewrite (DateTime_validate_unfold r name value Hacc).
    unfold DateTime__validate. now rewrite Hp, Hs.
Qed.

End Bound.

End Leaves.

(** ** Closed instances *)

Lemma Integer_family_validate_bounds_witness :
  In Kind.Byte integer_family /\
  accepted Kind.Byte (PyInt 255) = true /\
  exists bits z,
    BITS Kind.Byte = Some bits /\
    bits = 8 /\
    int_value (PyInt 255) = Some z /\
    bounds_outcome bits z (Sample.key "b")
      (validate Sample.key (Some Sample.key) Sample.float_str Sample.parse
         (new Kind.Byte None) "b" (PyInt 255)).
Proof.
  split; [simpl; auto |]. split; [reflexivity |].
  apply (Integer_family_validate_bounds
           Sample.key (Some Sample.key) Sample.float_str Sample.parse
           Sample.key eq_refl
           (new Kind.Byte None) "b" (PyInt 255)); [simpl; auto | reflexivity].
Defined.

Lemma IPv4Address_validate_dotted_quad_prefix_witness :
  Some Sample.key = Some Sample.key /\
  (validate Sample.key (Some Sample.key) Sample.float_str Sample.parse
     (new Kind.IPv4Address None) "ip" (PyStr "141.212.120.0xyz") = Returns tt
   <-> dotted_quad_prefix "141.212.120.0xyz").
Proof.
  split; [reflexivity |].
  apply (IPv4Address_validate_dotted_quad_prefix
           Sample.key (Some Sample.key) Sample.float_str Sample.parse
           Sample.key eq_refl false "ip" "141.212.120.0xyz").
Defined.

Lemma Binary_validate_hex_prefix_witness :
  (__class__ (new Kind.IndexedBinary None) = Kind.Binary \/
   __class__ (new Kind.IndexedBinary None) = Kind.IndexedBinary) /\
  (validate Sample.key (Some Sample.key) Sample.float_str Sample.parse
     (new Kind.IndexedBinary None) "b" (PyStr "0zz") = Returns tt
   <-> hex_prefix "0zz").
Proof.
  split; [right; reflexivity |].
  apply (Binary_validate_hex_prefix
           Sample.key (Some Sample.key) Sample.float_str Sample.parse
           Sample.key eq_refl
           (new Kind.IndexedBinary None) "b" "0zz").
  right; reflexivity.
Defined.

Lemma canonical_examples_witness :
  2 ^ 31 - 1 <= Sample.maxint /\
  Sample.parse (PyStr "Wed Jul  8 08:52:01 EDT 2015") = true /\
  Sample.parse (PyStr "Wed DNE  35 08:52:01 EDT 2015") = false /\
  In Kind.DateTime VALID_LEAVES /\
  (exists v,
      VALID Sample.maxint Kind.DateTime = Some v /\
      validate Sample.key (Some Sample.key) Sample.float_str Sample.parse
        (new Kind.DateTime None) "DateTime" v = Returns tt) /\
  (exists w args,
      INVALID Sample.maxint Kind.DateTime = Some w /\
      validate Sample.key (Some Sample.key) Sample.float_str Sample.parse
        (new Kind.DateTime None) "DateTime" w =
        Raises (DataValidationException args)).
Proof.
  split; [vm_compute; discriminate |].
  split; [reflexivity |]. split; [reflexivity |].
  split; [simpl; auto |].
  apply (canonical_examples
           Sample.key (Some Sample.key) Sample.float_str Sample.parse
           Sample.maxint Sample.key);
    [reflexivity | vm_compute; discriminate | reflexivity | reflexivity
    | simpl; auto].
Defined.

(** [Integer] is in the catalog and binds no index mode; reading one finds
    none, and in particular not ["analyzed"]. *)
Lemma index_mode_default_counterexample :
  In Kind.Integer VALID_LEAVES /\
  own_ES_INDEX_TYPE Kind.Integer = None /\
  ~ (exists mode, ES_INDEX_TYPE Kind.Integer = Some mode /\
                  In mode VALID_ES_INDEX_TYPES).
Proof.
  split; [simpl; auto 15 |]. split; [reflexivity |].
  intros (mode & Hmode & _). discriminate Hmode.
Qed.

Lemma raised_exception_shape_witness :
  validate Sample.key (Some Sample.key) Sample.float_str Sample.parse
    (new Kind.Byte None) "b" (PyInt 261) =
    Raises (DataValidationException
              [AStr "%s: %s is larger than max (%s)"; AStr "b"; AStr "261";
               AStr "255"]) /\
  exn_message (DataValidationException
                 [AStr "%s: %s is larger than max (%s)"; AStr "b";
                  AStr "261"; AStr "255"]) = Some (AStr "").
Proof.
  split; [reflexivity |].
  apply (raised_exception_shape
           Sample.key (Some Sample.key) Sample.float_str Sample.parse
           (new Kind.Byte None) "b" (PyInt 261)).
  reflexivity.
Defined.

Lemma hookless_validate_is_class_check_witness :
  In Kind.Boolean hookless /\
  (validate Sample.key (Some Sample.key) Sample.float_str Sample.parse
     (new Kind.Boolean None) "flag" (PyBool false) = Returns tt
   <-> accepted Kind.Boolean (PyBool false) = true).
Proof.
  split; [simpl; auto 6 |].
  apply (hookless_validate_is_class_check
           Sample.key (Some Sample.key) Sample.float_str Sample.parse
           (new Kind.Boolean None) "flag" (PyBool false)).
  simpl; auto 6.
Defined.

Lemma to_bigquery_reads_back_witness :
  to_bigquery Sample.key (new Kind.Integer (Some true)) "age" =
    to_bigquery Sample.key (new Kind.Byte (Some true)) "age" /\
  required (new Kind.Integer (Some true)) = required (new Kind.Byte (Some true)) /\
  BQ_TYPE Kind.Integer = BQ_TYPE Kind.Byte /\
  Sample.key "age" = Sample.key "age".
Proof.
  split; [reflexivity |].
  apply (to_bigquery_reads_back Sample.key
           (new Kind.Integer (Some true)) (new Kind.Byte (Some true))
           "age" "age").
  reflexivity.
Defined.

Lemma to_string_tells_kinds_apart_witness :
  to_string Sample.key (new Kind.IPv4Address None) "host" =
    to_string Sample.key (new Kind.IPv4Address (Some true)) "host" /\
  to_string Sample.key (new Kind.IPv4Address None) "host" =
    Some "host: ipv4address".
Proof.
  split; [reflexivity |].
  apply (to_string_tells_kinds_apart Sample.key
           (new Kind.IPv4Address None) (new Kind.IPv4Address (Some true))
           "host").
  reflexivity.
Defined.

Lemma unit_tests_need_key_to_string_witness :
  test_valid Sample.key None Sample.float_str Sample.parse Sample.maxint =
    Raises (NameError "key_to_string") /\
  test_invalid Sample.key None Sample.float_str Sample.parse Sample.maxint =
    Raises (NameError "key_to_string").
Proof.
  apply (unit_tests_need_key_to_string
           Sample.key None Sample.float_str Sample.parse Sample.maxint).
  reflexivity.
Defined.

Lemma integer_ranges_nested_witness :
  validate Sample.key (Some Sample.key) Sample.float_str Sample.parse
    (new Kind.Byte None) "b" (PyInt 255) = Returns tt /\
  validate Sample.key (Some Sample.key) Sample.float_str Sample.parse
    (new Kind.Short None) "b" (PyInt 255) = Returns tt.
Proof.
  split; [reflexivity |].
  apply (integer_ranges_nested
           Sample.key (Some Sample.key) Sample.float_str Sample.parse
           Sample.key eq_refl false "b" 255).
  reflexivity.
Defined.


Lemma pattern_leaves_accept_extensions_witness :
  In Kind.Binary [Kind.IPv4Address; Kind.Binary; Kind.IndexedBinary] /\
  validate Sample.key (Some Sample.key) Sample.float_str Sample.parse
    (new Kind.Binary None) "raw" (PyStr "0") = Returns tt /\
  validate Sample.key (Some Sample.key) Sample.float_str Sample.parse
    (new Kind.Binary None) "cooked" (PyStr ("0" +:+ "zz"))
    = Returns tt.
Proof.
  split; [simpl; auto |]. split; [reflexivity |].
  apply (pattern_leaves_accept_extensions
           Sample.key (Some Sample.key) Sample.float_str Sample.parse
           Sample.key eq_refl (new Kind.Binary None) "raw" "cooked" "0" "zz");
    [simpl; auto | reflexivity].
Defined.

Lemma IPv4Address_accepts_dotted_decimal_witness :
  (141 < 256)%N /\ (212 < 256)%N /\ (120 < 256)%N /\ (0 < 256)%N /\
  validate Sample.key (Some Sample.key) Sample.float_str Sample.parse
    (new Kind.IPv4Address None) "ip"
    (PyStr (dotted_decimal 141 212 120 0)) = Returns tt.
Proof.
  repeat (split; [reflexivity |]).
  apply (IPv4Address_accepts_dotted_decimal
           Sample.key (Some Sample.key) Sample.float_str Sample.parse
           Sample.key eq_refl false "ip" 141 212 120 0); reflexivity.
Defined.

Lemma IPv4Address_accepted_shape_witness :
  validate Sample.key (Some Sample.key) Sample.float_str Sample.parse
    (new Kind.IPv4Address None) "ip" (PyStr "1.2.3.4")
    = Returns tt /\
  (7 <= String.length "1.2.3.4")%nat /\
  exists c rest, "1.2.3.4" = String c rest /\ is_digit c = true.
Proof.
  split; [reflexivity |].
  apply (IPv4Address_accepted_shape
           Sample.key (Some Sample.key) Sample.float_str Sample.parse
           Sample.key eq_refl false "ip" "1.2.3.4").
  reflexivity.
Defined.

Lemma DateTime_validate_follows_parser_witness :
  Sample.parse (PyInt 5) = false /\
  exists s,
    str Sample.float_str (PyInt 5) = Returns s /\
    validate Sample.key (Some Sample.key) Sample.float_str Sample.parse
      (new Kind.DateTime None) "ts" (PyInt 5) =
      Raises (DataValidationException
                [AStr "%s: %s is not valid timestamp";
                 AStr (Sample.key "ts"); AStr s]).
Proof.
  split; [reflexivity |].
  apply (DateTime_validate_follows_parser
           Sample.key (Some Sample.key) Sample.float_str Sample.parse
           Sample.key eq_refl false "ts" (PyInt 5));
    [right; reflexivity | reflexivity].
Defined.

Lemma unit_tests_pass_witness :
  test_valid Sample.key (Some Sample.key) Sample.float_str Sample.parse
    Sample.maxint = Returns tt /\
  test_invalid Sample.key (Some Sample.key) Sample.float_str Sample.parse
    Sample.maxint = Returns tt.
Proof.
  apply (unit_tests_pass
           Sample.key (Some Sample.key) Sample.float_str Sample.parse
           Sample.maxint Sample.key eq_refl);
    [vm_compute; discriminate | reflexivity | reflexivity].
Defined.
